(** * Akita: loading gate, stories service and server-side paginator

    A shallow embedding of [packages/akita/src/lib/setLoading.ts] (the
    [setLoading] operator), of [StoriesService.add], and of the paginator
    that the accompanying documentation describes, together with the
    properties stated about them.

    The reactive code is written against RxJS.  Module [Rx] is a small
    executable model of the part of RxJS the sources use: a subscriber
    with its [closed]/[isStopped] flags and its list of finalizers, the
    three notifications, and the operators [defer], [finalize], [mapTo]
    and [tap]. *)

From stdpp Require Import base option list gmap.
From Stdlib Require Import ZArith Lia.

Local Open Scope Z_scope.

(* ===================================================================== *)
(** * RxJS kernel                                                         *)
(* ===================================================================== *)

Module Rx.

(** What a producer can hand to a subscriber. *)
Inductive Notification (T E : Type) : Type :=
| Next (v : T)
| Error (e : E)
| Complete.
Arguments Next {T E} v.
Arguments Error {T E} e.
Arguments Complete {T E}.

Definition isTerminal {T E} (n : Notification T E) : bool :=
  match n with Next _ => false | _ => true end.

Section Kernel.
(** [S] is the mutable program state that callbacks may touch, [T] the
    type of emitted values and [E] the type of errors. *)
Context {S T E : Type}.

(** The destination observer: the effect of handing it a notification. *)
Variable dest : Notification T E -> S -> S.

(** [Subscriber extends Subscription]: [closed] and the finalizers come
    from [Subscription], [isStopped] from [Subscriber].  [received] is
    the list of notifications handed to the destination so far. *)
Record Subscriber : Type := mkSubscriber {
  closed : bool;
  isStopped : bool;
  finalizers : list (S -> S);
  received : list (Notification T E)
}.

Record World : Type := mkWorld {
  state : S;
  sub : Subscriber
}.

Definition fresh (s : S) : World :=
  mkWorld s (mkSubscriber false false [] []).

Definition execFinalizers (fs : list (S -> S)) (s : S) : S :=
  fold_left (fun acc f => f acc) fs s.

(** [Subscription.unsubscribe]: runs the finalizers once, in the order
    they were added; a second call does nothing. *)
Definition unsubscribe (w : World) : World :=
  if closed (sub w) then w
  else mkWorld (execFinalizers (finalizers (sub w)) (state w))
               (mkSubscriber true true [] (received (sub w))).

(** [Subscription.add]: a finalizer added to a closed subscription is
    executed at once. *)
Definition add (f : S -> S) (w : World) : World :=
  if closed (sub w) then mkWorld (f (state w)) (sub w)
  else mkWorld (state w)
               (mkSubscriber (closed (sub w)) (isStopped (sub w))
                             (finalizers (sub w) ++ [f]) (received (sub w))).

Definition deliver (n : Notification T E) (w : World) : World :=
  mkWorld (dest n (state w))
          (mkSubscriber (closed (sub w)) (isStopped (sub w))
                        (finalizers (sub w)) (received (sub w) ++ [n])).

Definition stop (w : World) : World :=
  mkWorld (state w)
          (mkSubscriber (closed (sub w)) true
                        (finalizers (sub w)) (received (sub w))).

(** [Subscriber.next / error / complete]. *)
Definition next (v : T) (w : World) : World :=
  if isStopped (sub w) then w else deliver (Next v) w.

Definition error (e : E) (w : World) : World :=
  if isStopped (sub w) then w else unsubscribe (deliver (Error e) (stop w)).

Definition complete (w : World) : World :=
  if isStopped (sub w) then w else unsubscribe (deliver Complete (stop w)).

Definition notify (n : Notification T E) (w : World) : World :=
  match n with
  | Next v => next v w
  | Error e => error e w
  | Complete => complete w
  end.

Definition notifyAll (ns : list (Notification T E)) (w : World) : World :=
  fold_left (fun acc n => notify n acc) ns w.

(** An observable is its [subscribe] function, acting on the world that
    holds the subscriber. *)
Definition Observable : Type := World -> World.

(** A producer: the notifications it pushes synchronously inside
    [subscribe], and the teardown logic that [subscribe] returns. *)
Record Source : Type := mkSource {
  sync : list (Notification T E);
  teardown : S -> S
}.

Definition fromSource (src : Source) : Observable :=
  fun w => add (teardown src) (notifyAll (sync src) w).

(** [defer(factory)]: the factory runs at subscription time and the
    observable it returns is subscribed with the same subscriber. *)
Definition defer (factory : S -> S * Observable) : Observable :=
  fun w => let '(s', inner) := factory (state w) in
           inner (mkWorld s' (sub w)).

(** [finalize(callback)]:
    [try { source.subscribe(subscriber) } finally { subscriber.add(callback) }]. *)
Definition finalize (callback : S -> S) (source : Observable) : Observable :=
  fun w => add callback (source w).

(** What happens after [subscribe] has returned: the producer pushes a
    notification, or the consumer unsubscribes. *)
Inductive Event : Type :=
| Emit (n : Notification T E)
| Unsubscribe.

Definition react (e : Event) (w : World) : World :=
  match e with
  | Emit n => notify n w
  | Unsubscribe => unsubscribe w
  end.

Definition run (es : list Event) (w : World) : World :=
  fold_left (fun acc e => react e acc) es w.

Definition isExit (e : Event) : bool :=
  match e with
  | Emit n => isTerminal n
  | Unsubscribe => true
  end.

(** The notifications a well-behaved consumer sees from a stream of
    events: everything up to and including the first terminal
    notification, and nothing after an unsubscription. *)
Fixpoint observed (es : list Event) : list (Notification T E) :=
  match es with
  | [] => []
  | Unsubscribe :: _ => []
  | Emit n :: es' => if isTerminal n then [n] else n :: observed es'
  end.

(** [tracks es w]: [w] is the world a fresh subscriber reaches after the
    events [es]; used to follow a run event by event. *)
Definition tracks (es : list Event) (w : World) : Prop :=
  isStopped (sub w) = closed (sub w) /\
  closed (sub w) = existsb isExit es /\
  received (sub w) = observed es.

End Kernel.

Arguments Subscriber : clear implicits.
Arguments World : clear implicits.
Arguments Observable : clear implicits.
Arguments Source : clear implicits.
Arguments Event : clear implicits.

(** Operators that act on a notification on its way to the destination.
    [mapTo(value)] replaces every value; errors and completion pass. *)
Definition mapTo {S A B E} (value : B) (dest : Notification B E -> S -> S)
  : Notification A E -> S -> S :=
  fun n =>
    match n with
    | Next _ => dest (Next value)
    | Error e => dest (Error e)
    | Complete => dest Complete
    end.

(** [tap(next)]: runs [next] on every value, then forwards the value;
    errors and completion pass untouched. *)
Definition tap {S T E} (f : T -> S -> S) (dest : Notification T E -> S -> S)
  : Notification T E -> S -> S :=
  fun n s =>
    match n with
    | Next v => dest (Next v) (f v s)
    | _ => dest n s
    end.

(** A timer observable piped through operators:
    [timer(dueTime).pipe(op1).pipe(op2)].  [through] is what the operators
    make of the destination's handler. *)
Record Piped (S T E : Type) : Type := mkPiped {
  dueTime : nat;
  through : (Notification T E -> S -> S) -> Notification nat E -> S -> S
}.
Arguments mkPiped {S T E} _ _.
Arguments dueTime {S T E} _.
Arguments through {S T E} _ _ _ _.

Definition timer {S E} (due : nat) : Piped S nat E :=
  mkPiped due (fun dest => dest).

Definition pipe {S A B E} (o : Piped S A E)
    (op : (Notification B E -> S -> S) -> Notification A E -> S -> S)
  : Piped S B E :=
  mkPiped (dueTime o) (fun dest => through o (op dest)).

(** Subscribing to a timer schedules one action; when [dueTime]
    milliseconds have elapsed it pushes [0] and completes, and
    unsubscribing before that clears it.  [remaining] is the time left
    on the scheduled action, [None] once it has run or been cleared. *)
Record Timed (S E : Type) : Type := mkTimed {
  world : World S nat E;
  remaining : option nat
}.
Arguments mkTimed {S E} _ _.
Arguments world {S E} _.
Arguments remaining {S E} _.

Definition subscribeTimer {S T E} (o : Piped S T E) (w : World S nat E)
  : Timed S E :=
  mkTimed w (Some (dueTime o)).

Inductive Tick : Type :=
| Elapse (ms : nat)
| Cancel.

Definition tick {S E} (dest : Notification nat E -> S -> S)
    (t : Tick) (x : Timed S E) : Timed S E :=
  match t with
  | Elapse ms =>
      match remaining x with
      | Some r =>
          if (r <=? ms)%nat
          then mkTimed (notifyAll dest [Next 0%nat; Complete] (world x)) None
          else mkTimed (world x) (Some (r - ms)%nat)
      | None => x
      end
  | Cancel => mkTimed (unsubscribe (world x)) None
  end.

Definition ticks {S E} (dest : Notification nat E -> S -> S)
    (ts : list Tick) (x : Timed S E) : Timed S E :=
  fold_left (fun acc t => tick dest t acc) ts x.

(** Whether a timer with [r] milliseconds left gets to run. *)
Fixpoint fires (r : nat) (ts : list Tick) : bool :=
  match ts with
  | [] => false
  | Cancel :: _ => false
  | Elapse ms :: ts' => if (r <=? ms)%nat then true else fires (r - ms) ts'
  end.

End Rx.

(* ===================================================================== *)
(** * The store that owns the loading flag                                *)
(* ===================================================================== *)

Module Store.

(** The owner of a loading flag.  [rest] stands for everything else the
    program can observe; [history] is a ghost field that records every
    call of [setLoading], oldest first. *)
Record Store (R : Type) : Type := mkStore {
  loading : bool;
  history : list bool;
  rest : R
}.
Arguments mkStore {R} _ _ _.
Arguments loading {R} _.
Arguments history {R} _.
Arguments rest {R} _.

(** Modelled from the spec: [Store.setLoading] lives in [./store], which
    is not among the sources; the owner "exposes [setLoading(boolean)]"
    and a call sets [O.loading] to its argument. *)
Definition setLoading {R} (b : bool) (s : Store R) : Store R :=
  mkStore b (history s ++ [b]) (rest s).

(** A callback that only touches the rest of the state. *)
Definition onRest {R} (f : R -> R) (s : Store R) : Store R :=
  mkStore (loading s) (history s) (f (rest s)).

End Store.

(* ===================================================================== *)
(** * setLoading.ts                                                       *)
(* ===================================================================== *)

Module LoadingGate.
Import Rx Store.

Section Gate.
Context {R T E : Type}.

(** [setLoading(store)(source)]:
<<
  defer(() => {
    store.setLoading(true);
    return source.pipe(finalize(() => store.setLoading(false)));
  })
>>
    The [store] object is the [Store R] held in the world. *)
Definition setLoading (source : Observable (Store R) T E)
  : Observable (Store R) T E :=
  defer (fun store =>
           (Store.setLoading true store,
            finalize (Store.setLoading false) source)).

(** Observers and producers whose own effects stay within [rest]. *)
Definition liftObserver (obs : Notification T E -> R -> R)
  : Notification T E -> Store R -> Store R :=
  fun n => onRest (obs n).

Definition liftSource (src : Source R T E) : Source (Store R) T E :=
  mkSource (sync src) (onRest (teardown src)).

(** One run of a source without the gate and with it: subscribe with a
    fresh subscriber, then let the events happen. *)
Definition plainRun (obs : Notification T E -> R -> R) (src : Source R T E)
    (es : list (Event T E)) (s0 : Store R) : World (Store R) T E :=
  run (liftObserver obs) es
      (fromSource (liftObserver obs) (liftSource src) (fresh s0)).

Definition gatedRun (obs : Notification T E -> R -> R) (src : Source R T E)
    (es : list (Event T E)) (s0 : Store R) : World (Store R) T E :=
  run (liftObserver obs) es
      (setLoading (fromSource (liftObserver obs) (liftSource src)) (fresh s0)).

(** While the source is being subscribed inside the gate: the flag has
    been raised, nothing else differs from the run without the gate. *)
Definition entering (h0 : list bool) (wp wg : World (Store R) T E) : Prop :=
  sub wg = sub wp /\ finalizers (sub wp) = [] /\
  rest (state wg) = rest (state wp) /\
  loading (state wg) = true /\ history (state wg) = h0 ++ [true].

(** After subscription: the gated world [wg] mirrors the plain world [wp]
    except for the flag, its history and the gate's own finalizer. *)
Definition mirrors (h0 : list bool) (wp wg : World (Store R) T E) : Prop :=
  closed (sub wg) = closed (sub wp) /\
  isStopped (sub wg) = isStopped (sub wp) /\
  received (sub wg) = received (sub wp) /\
  rest (state wg) = rest (state wp) /\
  if closed (sub wp)
  then loading (state wg) = false /\ history (state wg) = h0 ++ [true; false]
  else loading (state wg) = true /\ history (state wg) = h0 ++ [true] /\
       exists fs : list (R -> R),
         finalizers (sub wp) = map onRest fs /\
         finalizers (sub wg) = map onRest fs ++ [Store.setLoading false].

(** Everything the producer does, as one stream of events. *)
Definition allEvents (src : Source R T E) (es : list (Event T E))
  : list (Event T E) :=
  map Emit (sync src) ++ es.

Definition exited (src : Source R T E) (es : list (Event T E)) : bool :=
  existsb isExit (allEvents src es).

End Gate.
End LoadingGate.

(* ===================================================================== *)
(** * StoriesService                                                      *)
(* ===================================================================== *)

Module Stories.
Import Rx Store.

Section Service.
Context {R Story E : Type}.

(** [StoriesStore.add] is declared in [./stories.store], which is not among
    the sources: it is a parameter, acting on the rest of the store. *)
Variable storeAdd : Story -> R -> R.

(** The observer the caller subscribes with. *)
Variable obs : Notification Story E -> R -> R.

(** The body of the [tap] callback. *)
Definition onStory (story : Story) (s : Store R) : Store R :=
  onRest (storeAdd story) (Store.setLoading false s).

(** [add(story)]:
<<
      this.storiesStore.setLoading(true);
      return timer(1000).pipe(mapTo(story)).pipe(tap((story) => { ... }));
>>
    The result is the store after the call and the observable returned. *)
Definition add (story : Story) (s : Store R)
  : Store R * Piped (Store R) Story E :=
  (Store.setLoading true s,
   pipe (pipe (timer 1000) (mapTo story)) (tap onStory)).

(** The handler the timer's notifications go through before they reach the
    caller's observer. *)
Definition pipeline (story : Story) (s : Store R)
  : Notification nat E -> Store R -> Store R :=
  through (snd (add story s)) (fun n => onRest (obs n)).

(** A session: [add] is called; the result is either never subscribed
    ([None]) or subscribed once and then time passes and the subscriber
    may cancel. *)
Definition session (story : Story) (after : option (list Tick))
    (s0 : Store R) : Store R :=
  let '(s1, returned) := add story s0 in
  match after with
  | None => s1
  | Some ts =>
      state (world (ticks (through returned (fun n => onRest (obs n))) ts
                      (subscribeTimer returned (fresh s1))))
  end.

(** The operators of the observable that [add] returns, fed by an
    arbitrary upstream instead of the timer: subscribed right after the
    call of [add], then the events [es] happen. *)
Definition upstreamRun (story : Story) (es : list (Event nat E))
    (s0 : Store R) : World (Store R) nat E :=
  run (pipeline story s0) es (fresh (fst (add story s0))).

(** Whether a value gets through to the subscriber. *)
Definition isValue (n : Notification nat E) : bool := negb (isTerminal n).
Definition delivers (es : list (Event nat E)) : bool :=
  existsb isValue (observed es).

(** The store once the timer has run while the subscriber was listening. *)
Definition succeeded (story : Story) (s0 : Store R) : Store R :=
  mkStore false (history s0 ++ [true; false])
    (obs Complete (obs (Next story) (storeAdd story (rest s0)))).

End Service.
End Stories.

(* ===================================================================== *)
(** * Paginator                                                           *)
(* ===================================================================== *)

(** The paginator plugin itself is not among the sources; only the
    documentation of its use is.  The definitions of this module follow
    the specification. *)
Module Paginator.

Section Paginator.
(** The type of the entities on a page. *)
Context {T : Type}.

(** Expected raw server response:
    [{ perPage: int, lastPage: int, currentPage: int, total?: int, data: T[] }];
    [data] may be missing from a malformed response. *)
Record RawResponse : Type := mkRaw {
  rawData : option (list T);
  rawPerPage : Z;
  rawLastPage : Z;
  rawCurrentPage : Z;
  rawTotal : option Z
}.

(** Modelled from the spec: PageRecord, the normalized snapshot of one
    fetched page. *)
Record PageRecord : Type := mkPage {
  data : list T;
  perPage : Z;
  lastPage : Z;
  currentPage : Z;
  total : Z
}.

Inductive ErrorKind : Type := ValidationError | FetchError.

(** Modelled from the spec: ResponseNormalizer (the plugin's code is not
    among the sources).  "Output: PageRecord with [total] defaulted to
    [perPage * lastPage] when absent.  Fails with a validation error kind
    if [data] is absent or [perPage]/[lastPage] are not positive
    integers." *)
Definition normalize (r : RawResponse) : ErrorKind + PageRecord :=
  match rawData r with
  | None => inl ValidationError
  | Some d =>
      if (0 <? rawPerPage r) && (0 <? rawLastPage r)
      then inr (mkPage d (rawPerPage r) (rawLastPage r) (rawCurrentPage r)
                       (default (rawPerPage r * rawLastPage r) (rawTotal r)))
      else inl ValidationError
  end.

(** Modelled from the spec: PageCache, a mapping PageKey -> PageRecord
    with [get], [set] (overwrites), [has] and [clear]. *)
Definition cacheGet (key : Z) (c : gmap Z PageRecord) : option PageRecord :=
  c !! key.
Definition cacheSet (key : Z) (record : PageRecord) (c : gmap Z PageRecord)
  : gmap Z PageRecord := <[key := record]> c.
Definition cacheHas (key : Z) (c : gmap Z PageRecord) : bool :=
  bool_decide (is_Some (c !! key)).
Definition cacheClear (c : gmap Z PageRecord) : gmap Z PageRecord := ∅.

(** Modelled from the spec: the configuration options [pagesControls],
    [range] and [startWith] ([cacheTimeout] is an event source: each of
    its emissions is a [clearCache]); [window] is the fixed half-width of
    the page-control window the implementation chooses. *)
Record Config : Type := mkConfig {
  pagesControls : bool;
  range : bool;
  startWith : Z;
  window : nat
}.

(** Modelled from the spec: the emitted pagination view,
    [{ currentPage, perPage, lastPage, total, data, pageControls?, from?, to? }]. *)
Record View : Type := mkView {
  vCurrentPage : Z;
  vPerPage : Z;
  vLastPage : Z;
  vTotal : Z;
  vData : list T;
  vPageControls : option (list Z);
  vFrom : option Z;
  vTo : option Z
}.

(** Modelled from the spec: the pageControls algorithm, "a bounded window
    (... a fixed window size, e.g. centered on current page, clipped to
    [1, lastPage])". *)
Definition pageControls (w : nat) (current last : Z) : list Z :=
  filter (fun p => 1 <= p <= last) (seqZ (current - Z.of_nat w) (2 * Z.of_nat w + 1)).

(** Modelled from the spec: the range algorithm,
    "[from = (currentPage - 1) * perPage + 1] (or 0 if [total == 0]);
     [to = min(currentPage * perPage, total)]". *)
Definition rangeFrom (current per tot : Z) : Z :=
  if tot =? 0 then 0 else (current - 1) * per + 1.
Definition rangeTo (current per tot : Z) : Z :=
  Z.min (current * per) tot.

(** Modelled from the spec: the view of a page record; [pageControls] and
    [from]/[to] are "omitted/undefined" when their toggle is off. *)
Definition makeView (cfg : Config) (r : PageRecord) : View :=
  mkView (currentPage r) (perPage r) (lastPage r) (total r) (data r)
    (if pagesControls cfg
     then Some (pageControls (window cfg) (currentPage r) (lastPage r))
     else None)
    (if range cfg then Some (rangeFrom (currentPage r) (perPage r) (total r)) else None)
    (if range cfg then Some (rangeTo (currentPage r) (perPage r) (total r)) else None).

(** What the subscriber of [getPage] receives. *)
Inductive Emission : Type :=
| EView (v : View)
| EError (k : ErrorKind).

(** How an in-flight fetch ends: the request function's future is
    fulfilled with a raw response, or rejected. *)
Inductive Outcome : Type :=
| Fulfilled (raw : RawResponse)
| Rejected.

(** Modelled from the spec: the PaginatorController.  [navPage] is the
    page most recently requested; [lastKnown] the most recent [lastPage]
    observed; [invalidated] tells that the cache was cleared since the
    last page change; [pending] maps the id of every in-flight fetch to
    its page key and [active] is the fetch whose result the subscriber
    still waits for.  [requests] lists the pages for which the request
    function was invoked, and [emitted] what the subscriber received,
    each with the page key it was requested for. *)
Record Controller : Type := mkController {
  cache : gmap Z PageRecord;
  navPage : Z;
  lastKnown : option Z;
  invalidated : bool;
  isLoading : bool;
  nextId : nat;
  pending : gmap nat Z;
  active : option nat;
  requests : list Z;
  emitted : list (Z * Emission)
}.

Variable cfg : Config.

(** Modelled from the spec: the controller is "created empty", on the
    start page. *)
Definition init : Controller :=
  mkController ∅ (startWith cfg) None false false 0%nat ∅ None [] [].

(** Modelled from the spec: [isFirst]/[isLast], "computed from
    [currentPage] vs. 1 and vs. the most recent [lastPage] observed ...
    (undefined/false before any fetch)". *)
Definition isFirst (c : Controller) : bool := navPage c =? 1.
Definition isLast (c : Controller) : bool :=
  match lastKnown c with
  | Some l => navPage c =? l
  | None => false
  end.

(** Modelled from the spec: [getPage], reacting to page [p] on
    [pageChanges] (the plugin's code is not among the sources).  The
    result of an earlier request that is still awaited is dropped and its
    loading gate released; "cached record if present, else the result of
    invoking [requestFn] wrapped by LoadingGate". *)
Definition getPage (p : Z) (c : Controller) : Controller :=
  let loadingNow := match active c with Some _ => false | None => isLoading c end in
  match cacheGet p (cache c) with
  | Some r =>
      mkController (cache c) (navPage c) (lastKnown c) (invalidated c)
        loadingNow (nextId c) (pending c) None (requests c)
        (emitted c ++ [(p, EView (makeView cfg r))])
  | None =>
      mkController (cache c) (navPage c) (lastKnown c) (invalidated c)
        true (S (nextId c)) (<[nextId c := p]> (pending c)) (Some (nextId c))
        (requests c ++ [p]) (emitted c)
  end.

(** Modelled from the spec: [setPage] "fails silently (clamps) if [n < 1]
    or [n] exceeds the last known [lastPage] once a fetch has established
    it; prior to any fetch, any positive [n] is accepted", and is a
    "no-op if [n] equals current page and no invalidation occurred
    since". *)
Definition clamp (c : Controller) (n : Z) : Z :=
  match lastKnown c with
  | Some l => Z.min (Z.max 1 n) l
  | None => Z.max 1 n
  end.

Definition setPage (n : Z) (c : Controller) : Controller :=
  let p := clamp c n in
  if (p =? navPage c) && negb (invalidated c) then c
  else getPage p
         (mkController (cache c) p (lastKnown c) false (isLoading c)
            (nextId c) (pending c) (active c) (requests c) (emitted c)).

(** Modelled from the spec: "[nextPage()]/[prevPage()]:
    [setPage(current ± 1)]; no-op at bounds", [firstPage() = setPage(1)],
    [lastPage() = setPage(lastKnownLastPage)]. *)
Definition nextPage (c : Controller) : Controller :=
  if isLast c then c else setPage (navPage c + 1) c.
Definition prevPage (c : Controller) : Controller :=
  if isFirst c then c else setPage (navPage c - 1) c.
Definition setFirstPage (c : Controller) : Controller := setPage 1 c.
Definition setLastPage (c : Controller) : Controller :=
  match lastKnown c with
  | Some l => setPage l c
  | None => c
  end.

(** Modelled from the spec: [clearCache] "invalidates all cached pages". *)
Definition clearCache (c : Controller) : Controller :=
  mkController (cacheClear (cache c)) (navPage c) (lastKnown c) true
    (isLoading c) (nextId c) (pending c) (active c) (requests c) (emitted c).

(** Modelled from the spec: what [getPage] does when the fetch [id]
    settles.  A successful response is "normalized and cached on success"
    under the page key it was requested for - a record is "immutable once
    cached", so a key filled meanwhile is kept; the result is emitted
    only when the subscriber still waits for this very fetch ("the last
    [setPage] call strictly wins").  "On fetch failure, the error
    propagates to the subscriber for that page request; the cache is left
    unmodified". *)
Definition settle (id : nat) (o : Outcome) (c : Controller) : Controller :=
  match pending c !! id with
  | None => c
  | Some p =>
      let awaited := bool_decide (active c = Some id) in
      let result :=
        match o with
        | Fulfilled raw => normalize raw
        | Rejected => inl FetchError
        end in
      let cache' :=
        match result with
        | inr r => if cacheHas p (cache c) then cache c else cacheSet p r (cache c)
        | inl _ => cache c
        end in
      let lastKnown' :=
        match result with
        | inr r => Some (lastPage r)
        | inl _ => lastKnown c
        end in
      let emission :=
        match result with
        | inr r => EView (makeView cfg r)
        | inl k => EError k
        end in
      mkController cache' (navPage c) lastKnown' (invalidated c)
        (if awaited then false else isLoading c)
        (nextId c) (delete id (pending c))
        (if awaited then None else active c)
        (requests c)
        (if awaited then emitted c ++ [(p, emission)] else emitted c)
  end.

(** What can happen to a controller: a navigation call, an invalidation
    (by [clearCache] or by the cache timeout), or the settling of a
    fetch. *)
Inductive Action : Type :=
| SetPage (n : Z)
| NextPage
| PrevPage
| FirstPage
| LastPage
| ClearCache
| Settle (id : nat) (o : Outcome).

Definition step (a : Action) (c : Controller) : Controller :=
  match a with
  | SetPage n => setPage n c
  | NextPage => nextPage c
  | PrevPage => prevPage c
  | FirstPage => setFirstPage c
  | LastPage => setLastPage c
  | ClearCache => clearCache c
  | Settle id o => settle id o c
  end.

Definition steps (acts : list Action) (c : Controller) : Controller :=
  fold_left (fun acc a => step a acc) acts c.

(** Modelled from the spec: the controller once a view has subscribed;
    [pageChanges] replays the start page, which is requested at once. *)
Definition start : Controller := getPage (navPage init) init.


(** The fetch the subscriber waits for was requested for the page that was
    requested last. *)
Definition awaitsCurrent (c : Controller) : Prop :=
  forall id, active c = Some id -> pending c !! id = Some (navPage c).

(** An emission that carries a view carries one built from a page record. *)
Definition builtFromRecord (x : Z * Emission) : Prop :=
  match x.2 with
  | EView v => exists r, v = makeView cfg r
  | EError _ => True
  end.

(** [emits c c']: going from [c] to [c'] only appends emissions, each one
    built from a page record and each one for the page requested last;
    and the subscriber still waits for the right fetch. *)
Definition emits (c c' : Controller) : Prop :=
  awaitsCurrent c' /\
  exists new,
    emitted c' = emitted c ++ new /\
    Forall builtFromRecord new /\
    Forall (fun x => x.1 = navPage c') new.



(** A raw response the normalizer must reject: [data] absent, or
    [perPage] or [lastPage] not positive. *)
Definition malformed (raw : RawResponse) : Prop :=
  rawData raw = None \/ rawPerPage raw <= 0 \/ rawLastPage raw <= 0.

End Paginator.

Arguments RawResponse : clear implicits.
Arguments PageRecord : clear implicits.
Arguments View : clear implicits.
Arguments Emission : clear implicits.
Arguments Outcome : clear implicits.
Arguments Controller : clear implicits.
Arguments Action : clear implicits.

End Paginator.

(* ===================================================================== *)
(** * Sample data                                                         *)
(* ===================================================================== *)

Module Samples.
Import Paginator.

(** A store with nothing in it but the flag, an observer that only
    listens, a source that answers later (an HTTP request) and one that
    answers inside [subscribe] (like [of(1)]). *)
Definition idle : Store.Store (list nat) := Store.mkStore false [] [].
Definition listener : Rx.Notification nat unit -> list nat -> list nat :=
  fun _ seen => seen.
Definition request : Rx.Source (list nat) nat unit := Rx.mkSource [] id.
Definition ofOne : Rx.Source (list nat) nat unit :=
  Rx.mkSource [Rx.Next 1%nat; Rx.Complete] id.

(** A stories store keeps its stories in a list. *)
Definition pushStory (story : nat) (stories : list nat) : list nat :=
  stories ++ [story].

(** A paginator with controls and range, starting on page 1, with two
    page controls on either side of the current page. *)
Definition contactsCfg : Config := mkConfig true true 1 2.

(** The server's answer for page [n] of a collection of ten pages of ten
    contacts; [total] is left out. *)
Definition contactsPage (n : Z) : RawResponse nat :=
  mkRaw (Some [Z.to_nat n]) 10 10 n None.

Definition contactsRecord (n : Z) : PageRecord nat :=
  mkPage [Z.to_nat n] 10 10 n 100.

(** The answer to a request for page 50 of that collection: no data, and
    the last page is still 10. *)
Definition beyondLastPage : RawResponse nat :=
  mkRaw (Some []) 10 10 50 (Some 100).

(** A response without [data]. *)
Definition noData : RawResponse nat := mkRaw None 10 10 1 None.

(** Page 5 is requested and then page 7 while page 5 is still being
    fetched: fetch 0 is for the start page, 1 for page 5, 2 for page 7. *)
Definition fiveThenSeven : Controller nat :=
  steps contactsCfg [SetPage 5; SetPage 7] (start contactsCfg).

(** Page 50 is requested before any fetch has told the last page, and the
    server answers. *)
Definition askedBeyondLast : Controller nat :=
  steps contactsCfg [SetPage 50; Settle 1 (Fulfilled beyondLastPage)]
    (start contactsCfg).

(** The start page has been fetched. *)
Definition firstPageShown : Controller nat :=
  steps contactsCfg [Settle 0 (Fulfilled (contactsPage 1))] (start contactsCfg).

End Samples.

(* ===================================================================== *)
(** * More uses of the loading gate                                       *)
(* ===================================================================== *)

Module GateUse.
Import Rx Store LoadingGate.

Section Use.
Context {R T E : Type}.

(** Callbacks that read the loading flag of the store they are run in -
    a [complete] handler that looks at [store.loading], say - and write
    to the rest of the state. *)
Definition readingObserver (obs : Notification T E -> bool -> R -> R)
  : Notification T E -> Store R -> Store R :=
  fun n s => mkStore (loading s) (history s) (obs n (loading s) (rest s)).

Definition readingTeardown (td : bool -> R -> R) : Store R -> Store R :=
  fun s => mkStore (loading s) (history s) (td (loading s) (rest s)).

(** A gated run whose observer and whose source teardown read the flag. *)
Definition watchedRun (obs : Notification T E -> bool -> R -> R)
    (ns : list (Notification T E)) (td : bool -> R -> R)
    (es : list (Event T E)) (s0 : Store R) : World (Store R) T E :=
  run (readingObserver obs) es
      (setLoading
         (fromSource (readingObserver obs) (mkSource ns (readingTeardown td)))
         (fresh s0)).

(** After subscription, the watched gated world [wg] against the world
    [wp] of the bare source whose callbacks are told that the flag is
    raised. *)
Definition watches (wp wg : World (Store R) T E) : Prop :=
  closed (sub wg) = closed (sub wp) /\
  isStopped (sub wg) = isStopped (sub wp) /\
  received (sub wg) = received (sub wp) /\
  rest (state wg) = rest (state wp) /\
  if closed (sub wp)
  then isStopped (sub wp) = true
  else loading (state wg) = true /\
       exists fs : list (bool -> R -> R),
         finalizers (sub wp) = map (fun f => onRest (f true)) fs /\
         finalizers (sub wg) =
           map readingTeardown fs ++ [Store.setLoading false].

(** [watches], together with the flag and the calls of [setLoading] made
    so far, [h0] being the calls made before the run. *)
Definition raisedFor (h0 : list bool) (wp wg : World (Store R) T E) : Prop :=
  watches wp wg /\
  if closed (sub wp)
  then loading (state wg) = false /\ history (state wg) = h0 ++ [true; false]
  else history (state wg) = h0 ++ [true].

(** The same gated observable subscribed again and again, each time with
    the store the run before has left: [runs] gives, per subscription,
    what the source does and the events that follow. *)
Definition resubscribe (obs : Notification T E -> R -> R)
    (runs : list (Source R T E * list (Event T E))) (s0 : Store R) : Store R :=
  fold_left (fun s r => state (gatedRun obs r.1 r.2 s)) runs s0.

(** The calls of [setLoading] one subscription makes. *)
Definition cycle (r : Source R T E * list (Event T E)) : list bool :=
  true :: (if exited r.1 r.2 then [false] else []).

(** ** Two gates on one store *)

(** Two subscriptions, each with its own subscriber, share the store. *)
Inductive Gate : Type := GateA | GateB.

Record Shared : Type := mkShared {
  store : Store R;
  subA : Subscriber (Store R) T E;
  subB : Subscriber (Store R) T E
}.

Definition withGate (g : Gate)
    (f : World (Store R) T E -> World (Store R) T E) (x : Shared) : Shared :=
  match g with
  | GateA => let w := f (mkWorld (store x) (subA x)) in
             mkShared (state w) (sub w) (subB x)
  | GateB => let w := f (mkWorld (store x) (subB x)) in
             mkShared (state w) (subA x) (sub w)
  end.

Variable obsA obsB : Notification T E -> R -> R.
Variable tdA tdB : R -> R.

Definition observerOf (g : Gate) : Notification T E -> Store R -> Store R :=
  match g with
  | GateA => liftObserver obsA
  | GateB => liftObserver obsB
  end.

(** A source that answers later, like an HTTP request: nothing is pushed
    inside [subscribe]. *)
Definition later (td : R -> R) : Source (Store R) T E :=
  mkSource [] (onRest td).

(** Both gated sources are subscribed, [GateA] first; then the events
    happen, each at the gate it is labelled with. *)
Definition sharedStart (s0 : Store R) : Shared :=
  withGate GateB (setLoading (fromSource (observerOf GateB) (later tdB)))
    (withGate GateA (setLoading (fromSource (observerOf GateA) (later tdA)))
       (mkShared s0 (mkSubscriber false false [] [])
                    (mkSubscriber false false [] []))).

Definition sharedRun (es : list (Gate * Event T E)) (s0 : Store R) : Shared :=
  fold_left (fun x ge => withGate ge.1 (react (observerOf ge.1) ge.2) x)
            es (sharedStart s0).

Definition sameGate (g g' : Gate) : bool :=
  match g, g' with
  | GateA, GateA | GateB, GateB => true
  | _, _ => false
  end.

(** Whether the work behind gate [g] has ended. *)
Definition endedAt (g : Gate) (es : list (Gate * Event T E)) : bool :=
  existsb (fun ge => sameGate g ge.1 && isExit ge.2) es.

(** A gate's subscriber is either open with the source's teardown and the
    gate's callback to run, or closed. *)
Definition gateOpenOrClosed (td : R -> R) (s : Subscriber (Store R) T E) : Prop :=
  if closed s then isStopped s = true
  else isStopped s = false /\
       finalizers s = [onRest td; Store.setLoading false].

Definition sharedInvariant (h0 : list bool) (x : Shared) : Prop :=
  gateOpenOrClosed tdA (subA x) /\ gateOpenOrClosed tdB (subB x) /\
  loading (store x) = negb (closed (subA x) || closed (subB x)) /\
  history (store x) =
    h0 ++ true :: true ::
      (if closed (subA x) then [false] else []) ++
      (if closed (subB x) then [false] else []).

End Use.
End GateUse.

(* ===================================================================== *)
(** * More uses of StoriesService.add                                     *)
(* ===================================================================== *)

Module StoriesUse.
Import Rx Store Stories.

Section Use.
Context {R Story E : Type}.
Variable storeAdd : Story -> R -> R.
Variable obs : Notification Story E -> R -> R.

(** What one successful subscription does to the rest of the store: the
    story is added, then the observer gets the story and the completion. *)
Definition storyArrives (story : Story) (r : R) : R :=
  obs Complete (obs (Next story) (storeAdd story r)).

(** What one timer that runs does to the store: the [tap] callback lowers
    the flag and adds the story, and the observer is served. *)
Definition firedOnce (story : Story) (s : Store R) : Store R :=
  mkStore false (history s ++ [false]) (storyArrives story (rest s)).

(** Two subscriptions to the observable that [add] returned: each has its
    own subscriber and its own timer, both work on the one store, and the
    clock is the same for both. *)
Record Pair : Type := mkPair {
  shared : Store R;
  firstSub : Subscriber (Store R) nat E;
  firstLeft : option nat;
  secondSub : Subscriber (Store R) nat E;
  secondLeft : option nat
}.

(** While both subscriptions exist: time passes, for both timers, or one
    of the two subscribers cancels. *)
Inductive Tick2 : Type :=
| Pass (ms : nat)
| CancelFirst
| CancelSecond.

(** When time passes, the timer of the first subscription, scheduled
    earlier, is served before that of the second. *)
Definition tick2 (handler : Notification nat E -> Store R -> Store R)
    (t : Tick2) (x : Pair) : Pair :=
  match t with
  | Pass ms =>
      let y := tick handler (Elapse ms)
                 (mkTimed (mkWorld (shared x) (firstSub x)) (firstLeft x)) in
      let z := tick handler (Elapse ms)
                 (mkTimed (mkWorld (state (world y)) (secondSub x))
                          (secondLeft x)) in
      mkPair (state (world z)) (sub (world y)) (remaining y)
             (sub (world z)) (remaining z)
  | CancelFirst =>
      let y := tick handler Cancel
                 (mkTimed (mkWorld (shared x) (firstSub x)) (firstLeft x)) in
      mkPair (state (world y)) (sub (world y)) (remaining y)
             (secondSub x) (secondLeft x)
  | CancelSecond =>
      let z := tick handler Cancel
                 (mkTimed (mkWorld (shared x) (secondSub x)) (secondLeft x)) in
      mkPair (state (world z)) (firstSub x) (firstLeft x)
             (sub (world z)) (remaining z)
  end.

(** [add] is called once and the observable it returns is subscribed
    twice: [ts1] is what happens to the first subscription before the
    second one is made, [ts2] what happens once both exist.  The timer of
    the first subscription, if it is still scheduled, keeps running. *)
Definition subscribeAgain (story : Story) (ts1 : list Tick)
    (ts2 : list Tick2) (s0 : Store R) : Store R :=
  let '(s1, returned) := add storeAdd story s0 in
  let handler := through returned (fun n => onRest (obs n)) in
  let first := ticks handler ts1 (subscribeTimer returned (fresh s1)) in
  let second := subscribeTimer returned (fresh (state (world first))) in
  shared
    (fold_left (fun x t => tick2 handler t x) ts2
       (mkPair (state (world first)) (sub (world first)) (remaining first)
               (sub (world second)) (remaining second))).

(** What each of the two subscriptions sees of [ts2]. *)
Definition firstSees (ts : list Tick2) : list Tick :=
  flat_map (fun t => match t with
                     | Pass ms => [Elapse ms]
                     | CancelFirst => [Cancel]
                     | CancelSecond => []
                     end) ts.

Definition secondSees (ts : list Tick2) : list Tick :=
  flat_map (fun t => match t with
                     | Pass ms => [Elapse ms]
                     | CancelFirst => []
                     | CancelSecond => [Cancel]
                     end) ts.

(** Whether a timer with [left] to go - [None]: it has run or was cleared -
    gets to run, and what is left of it after a tick. *)
Definition firesFrom (left : option nat) (ts : list Tick) : bool :=
  match left with
  | Some r => fires r ts
  | None => false
  end.

Definition leftAfter (left : option nat) (t : Tick) : option nat :=
  match left, t with
  | Some r, Elapse ms => if (r <=? ms)%nat then None else Some (r - ms)%nat
  | _, _ => None
  end.

(** A timer and its subscriber: while the timer is scheduled the
    subscriber is open. *)
Definition scheduledOrOver (sb : Subscriber (Store R) nat E)
    (left : option nat) : Prop :=
  finalizers sb = [] /\
  match left with
  | Some _ => isStopped sb = false /\ closed sb = false
  | None => True
  end.

(** The milliseconds that pass before the subscriber cancels. *)
Fixpoint elapsed (ts : list Tick) : nat :=
  match ts with
  | [] => 0
  | Cancel :: _ => 0
  | Elapse ms :: ts' => ms + elapsed ts'
  end.

End Use.
End StoriesUse.

(* ===================================================================== *)
(** * RxJS switchMap                                                      *)
(* ===================================================================== *)

From Stdlib Require Strings.String.

Module SwitchMap.
Import Rx.

Section Switch.
(** [A] is the type of the outer values, [V] of the values of the inner
    observables. *)
Context {St A V E : Type}.

(** The effect of calling the projection on an outer value (the inner
    observable it returns is known by its index), the effect of tearing
    down the subscription to the inner observable of a given index, and
    the destination observer. *)
Variable project : A -> St -> St.
Variable innerTeardown : nat -> St -> St.
Variable dest : Notification V E -> St -> St.

(** The state of one subscription to [source.pipe(switchMap(project))]:
    the downstream subscriber, the index of the inner subscription that
    is live ([innerSubscriber]), the number of projections made so far
    ([index]) and whether the source has completed ([isComplete]). *)
Record Switched : Type := mkSwitched {
  down : World St V E;
  active : option nat;
  made : nat;
  outerDone : bool
}.

Inductive SwitchEvent : Type :=
| Outer (n : Notification A E)
| Inner (k : nat) (n : Notification V E)
| Dispose.

(** The live inner subscription, if any, is torn down. *)
Definition endInner (x : Switched) (s : St) : St :=
  match active x with
  | Some k => innerTeardown k s
  | None => s
  end.

(** The downstream subscriber is handed a terminal notification; it
    closes, and with it the live inner subscription. *)
Definition terminate (n : Notification V E) (x : Switched) : Switched :=
  let w := notify dest n (down x) in
  mkSwitched (mkWorld (endInner x (state w)) (sub w)) None (made x) (outerDone x).

(** - an outer value: [innerSubscriber?.unsubscribe()], then the
      projection is called and its result subscribed;
    - an outer error is passed on; an outer completion completes the
      result once no inner subscription is live;
    - a value of the live inner observable is passed on, its error as
      well, and its completion ends it;
    - notifications of an inner observable that is not the live one have
      no subscriber left;
    - nothing happens once the downstream subscriber has stopped. *)
Definition react (e : SwitchEvent) (x : Switched) : Switched :=
  if isStopped (sub (down x)) then x
  else
    match e with
    | Outer n =>
        if outerDone x then x
        else
          match n with
          | Next a =>
              mkSwitched
                (mkWorld (project a (endInner x (state (down x)))) (sub (down x)))
                (Some (made x)) (S (made x)) (outerDone x)
          | Error err => terminate (Error err) x
          | Complete =>
              match active x with
              | Some _ => mkSwitched (down x) (active x) (made x) true
              | None => terminate Complete x
              end
          end
    | Inner k n =>
        if bool_decide (active x = Some k)
        then
          match n with
          | Next v =>
              mkSwitched (notify dest (Next v) (down x))
                         (active x) (made x) (outerDone x)
          | Error err => terminate (Error err) x
          | Complete =>
              if outerDone x then terminate Complete x
              else mkSwitched
                     (mkWorld (endInner x (state (down x))) (sub (down x)))
                     None (made x) (outerDone x)
          end
        else x
    | Dispose =>
        let w := unsubscribe (down x) in
        mkSwitched (mkWorld (endInner x (state w)) (sub w))
                   None (made x) (outerDone x)
    end.

Definition subscribed (s : St) : Switched :=
  mkSwitched (fresh s) None 0 false.

Definition isLive (x : Switched) : bool :=
  match active x with Some _ => true | None => false end.

Definition run (es : list SwitchEvent) (x : Switched) : Switched :=
  fold_left (fun acc e => react e acc) es x.

(** The live inner subscription is the one made last, and once the
    downstream subscriber has stopped none is live. *)
Definition liveIsLast (x : Switched) : Prop :=
  (forall k, active x = Some k -> made x = S k) /\
  (isStopped (sub (down x)) = true -> active x = None) /\
  finalizers (sub (down x)) = [].

End Switch.

Arguments Switched : clear implicits.
Arguments SwitchEvent : clear implicits.

End SwitchMap.

(* ===================================================================== *)
(** * ContactsPageComponent                                               *)
(* ===================================================================== *)

Module ContactsPage.
Import Rx SwitchMap.
Import Stdlib.Strings.String.StringSyntax.
Local Delimit Scope string_scope with string.

(** The argument of [contactsService.getPage] in the basic component,
    [{ page, perPage: 10 }], and in the advanced one,
    [{ page, sortBy, perPage }]. *)
Record PageRequest : Type := mkPageRequest {
  reqPage : Z;
  reqPerPage : Z
}.

Record FilteredRequest : Type := mkFilteredRequest {
  fPage : Z;
  fSortBy : String.string;
  fPerPage : Z
}.

(** What the component asks of the paginator, in order: [getPage(reqFn)]
    with the request that [reqFn] would make, [clearCache()], and the
    teardown of the subscription to what [getPage] returned. *)
Inductive Call (Req : Type) : Type :=
| CallGetPage (r : Req)
| CallClearCache
| CallTeardown (k : nat).
Arguments CallGetPage {Req} r.
Arguments CallClearCache {Req}.
Arguments CallTeardown {Req} k.

Section Basic.
Context {St V E : Type}.

(** [paginatorRef.getPage] is not among the sources: the effect of
    calling it with a request function, and of tearing down what it
    returns, are parameters. *)
Variable getPage : PageRequest -> St -> St.
Variable innerTeardown : nat -> St -> St.
Variable dest : Notification V E -> St -> St.

(** The projection of the basic component:
<<
      switchMap(( page ) => {
        const reqFn = () => this.contactsService.getPage({ page, perPage: 10 });
        return this.paginatorRef.getPage(reqFn);
      })
>> *)
Definition projectPage (page : Z) : St -> St :=
  getPage (mkPageRequest page 10).

(** [pagination$], subscribed by the template: the events are the
    emissions of [pageChanges] ([Outer]), those of the observables that
    [getPage] has returned ([Inner]) and the end of the subscription. *)
Definition pagination (es : list (SwitchEvent Z V E)) (s : St)
  : Switched St V E :=
  run projectPage innerTeardown dest es (subscribed s).

End Basic.

(** The basic component with a paginator that only records what it is
    asked. *)
Definition recorded {V E : Type} (es : list (SwitchEvent Z V E))
  : Switched (list (Call PageRequest)) V E :=
  pagination (fun r t => t ++ [CallGetPage r])
             (fun k t => t ++ [CallTeardown k])
             (fun _ t => t) es [].

(** [Bracketed n live t]: the record [t] holds [n] calls of [getPage];
    every one but the last is followed by the teardown of what it
    returned before the next call, and the last one is followed by its
    teardown unless it is [live]. *)
Inductive Bracketed {Req : Type} : nat -> bool -> list (Call Req) -> Prop :=
| Bracketed_nil : Bracketed 0 false []
| Bracketed_get n t r :
    Bracketed n false t -> Bracketed (S n) true (t ++ [CallGetPage r])
| Bracketed_end n t :
    Bracketed (S n) true t -> Bracketed (S n) false (t ++ [CallTeardown n]).

Section Advanced.
Context {St V E : Type}.

Variable clearCache : St -> St.
Variable getPage : FilteredRequest -> St -> St.
Variable innerTeardown : nat -> St -> St.
Variable dest : Notification V E -> St -> St.

(** The projection of the advanced component:
<<
      switchMap(([page, [sortBy, perPage]]) => {
        const req = () => this.contactsService.getPage({ page, sortBy, perPage });
        return this.paginatorRef.getPage(req);
      })
>> *)
Definition projectFiltered (v : Z * (String.string * Z)) : St -> St :=
  getPage (mkFilteredRequest v.1 v.2.1 v.2.2).

(** The state of the subscription to
<<
      combineLatest([
        this.paginatorRef.pageChanges,
        combineLatest([sort, perPage]).pipe(tap(() => this.paginatorRef.clearCache())),
      ]).pipe(switchMap(...))
>>
    the latest value of each input and the state of the [switchMap]. *)
Record Combined : Type := mkCombined {
  latestPage : option Z;
  latestSortBy : String.string;
  latestPerPage : Z;
  switched : Switched St V E
}.

(** The outer [combineLatest] emits once it has a page. *)
Definition emitCombined (x : Combined) : Combined :=
  match latestPage x with
  | Some page =>
      mkCombined (latestPage x) (latestSortBy x) (latestPerPage x)
        (react projectFiltered innerTeardown dest
           (Outer (Next (page, (latestSortBy x, latestPerPage x))))
           (switched x))
  | None => x
  end.

(** The inner [combineLatest] emits: [tap] clears the cache, then the
    pair goes to the outer [combineLatest]. *)
Definition filtersEmit (x : Combined) : Combined :=
  emitCombined
    (mkCombined (latestPage x) (latestSortBy x) (latestPerPage x)
       (mkSwitched
          (mkWorld (clearCache (state (down (switched x))))
                   (sub (down (switched x))))
          (active (switched x)) (made (switched x))
          (outerDone (switched x)))).

(** Subscribing: [pageChanges] is subscribed first and may push the
    current page at once ([replayed]); then [sort] pushes ['price'] and
    [perPage] pushes [10] (their [startWith]), upon which the inner
    [combineLatest] emits for the first time. *)
Definition subscribeCombined (replayed : option Z) (s : St) : Combined :=
  filtersEmit (mkCombined replayed "price"%string 10 (subscribed s)).

(** What happens afterwards: [pageChanges] or a form control emits a
    value, an observable returned by [getPage] pushes a notification, or
    the subscription ends. *)
Inductive Input : Type :=
| PageChanges (page : Z)
| SortByChanges (sortBy : String.string)
| PerPageChanges (perPage : Z)
| FromGetPage (k : nat) (n : Notification V E)
| Unsubscribed.

Definition handle (i : Input) (x : Combined) : Combined :=
  if isStopped (sub (down (switched x))) then x
  else
    match i with
    | PageChanges page =>
        emitCombined
          (mkCombined (Some page) (latestSortBy x) (latestPerPage x) (switched x))
    | SortByChanges sortBy =>
        filtersEmit
          (mkCombined (latestPage x) sortBy (latestPerPage x) (switched x))
    | PerPageChanges perPage =>
        filtersEmit
          (mkCombined (latestPage x) (latestSortBy x) perPage (switched x))
    | FromGetPage k n =>
        mkCombined (latestPage x) (latestSortBy x) (latestPerPage x)
          (react projectFiltered innerTeardown dest (Inner k n) (switched x))
    | Unsubscribed =>
        mkCombined (latestPage x) (latestSortBy x) (latestPerPage x)
          (react projectFiltered innerTeardown dest Dispose (switched x))
    end.

Definition filtered (replayed : option Z) (ins : list Input) (s : St)
  : Combined :=
  fold_left (fun acc i => handle i acc) ins (subscribeCombined replayed s).

End Advanced.

Arguments Combined : clear implicits.
Arguments Input : clear implicits.

(** The advanced component with a paginator that only records what it is
    asked. *)
Definition recordedFiltered {V E : Type} (replayed : option Z)
    (ins : list (Input V E)) : Combined (list (Call FilteredRequest)) V E :=
  filtered (fun t => t ++ [CallClearCache])
           (fun r t => t ++ [CallGetPage r])
           (fun k t => t ++ [CallTeardown k])
           (fun _ t => t) replayed ins [].

(** The requests passed to [getPage] since the cache was last cleared. *)
Definition sinceClear {Req : Type} (t : list (Call Req)) : list Req :=
  fold_left
    (fun acc c =>
       match c with
       | CallGetPage r => acc ++ [r]
       | CallClearCache => []
       | CallTeardown _ => acc
       end) t [].

(** Every request since the cache was last cleared asks for the given sort
    key and page size. *)
Definition carriesSelected (sortBy : String.string) (perPage : Z)
    (t : list (Call FilteredRequest)) : Prop :=
  Forall (fun r => fSortBy r = sortBy /\ fPerPage r = perPage) (sinceClear t).

Definition isClear {Req : Type} (c : Call Req) : bool :=
  match c with CallClearCache => true | _ => false end.

Definition clears {Req : Type} (t : list (Call Req)) : nat :=
  length (List.filter isClear t).

(** The sort key and the page size selected last, and how often either was
    changed. *)
Definition selectedSortBy {V E : Type} (ins : list (Input V E)) : String.string :=
  fold_left (fun acc i => match i with SortByChanges s => s | _ => acc end)
            ins "price"%string.

Definition selectedPerPage {V E : Type} (ins : list (Input V E)) : Z :=
  fold_left (fun acc i => match i with PerPageChanges n => n | _ => acc end)
            ins 10.

Definition isFilterChange {V E : Type} (i : Input V E) : bool :=
  match i with
  | SortByChanges _ | PerPageChanges _ => true
  | _ => false
  end.

Definition filterChanges {V E : Type} (ins : list (Input V E)) : nat :=
  length (List.filter isFilterChange ins).

(** What holds of the recording advanced component [x] after the inputs
    [ins], as long as its subscription has not ended. *)
Definition followsSelection {V E : Type} (ins : list (Input V E))
    (x : Combined (list (Call FilteredRequest)) V E) : Prop :=
  finalizers (sub (down (switched x))) = [] /\
  outerDone (switched x) = false /\
  (isStopped (sub (down (switched x))) = false ->
   latestSortBy x = selectedSortBy ins /\
   latestPerPage x = selectedPerPage ins /\
   carriesSelected (selectedSortBy ins) (selectedPerPage ins)
     (state (down (switched x))) /\
   clears (state (down (switched x))) = S (filterChanges ins)).

End ContactsPage.

(* ===================================================================== *)
(** * Store middleware                                                    *)
(* ===================================================================== *)

Module Middleware.

Section Books.
(** Whatever a book has besides its price. *)
Context {Details : Type}.

Record Book : Type := mkBook {
  price : Z;
  details : Details
}.

(** [limitedPrice] is used but not defined in the sources: a parameter. *)
Variable limitedPrice : Z.

(** [BooksStore.akitaPreAddEntity]:
<<
      if (book.price === 100) {
        return { ...book, price: limitedPrice };
      }
      return book;
>> *)
Definition akitaPreAddEntity (book : Book) : Book :=
  if price book =? 100 then mkBook limitedPrice (details book) else book.

End Books.

Arguments Book : clear implicits.

End Middleware.

(* ===================================================================== *)
(** * More sample data                                                    *)
(* ===================================================================== *)

Module MoreSamples.
Import Rx SwitchMap ContactsPage.
Import Stdlib.Strings.String.StringSyntax.
Local Delimit Scope string_scope with string.

(** An observer and a teardown that write down the flag they see. *)
Definition noteFlag : Notification nat unit -> bool -> list bool -> list bool :=
  fun _ flag seen => seen ++ [flag].
Definition noteFlagAtTeardown : bool -> list bool -> list bool :=
  fun flag seen => seen ++ [flag].

(** Page 5, a first result for it, then page 7, a late result for page 5
    and a result for page 7. *)
Definition fiveSevenEvents : list (SwitchEvent Z nat unit) :=
  [Outer (Next 5); Inner 0 (Next 51%nat); Outer (Next 7);
   Inner 0 (Next 52%nat); Inner 1 (Next 71%nat)].




(** The user sorts by name and goes to page 2. *)
Definition sortThenPage : list (Input nat unit) :=
  [SortByChanges "name"%string; PageChanges 2].

End MoreSamples.

(* ===================================================================== *)
(** * Facts about the RxJS kernel                                         *)
(* ===================================================================== *)

Module RxFacts.
Import Rx.

Section Facts.
Context {S T E : Type}.
Variable dest : Notification T E -> S -> S.

Lemma observed_snoc (es : list (Event T E)) (e : Event T E) :
  observed (es ++ [e]) =
  observed es ++
    (if existsb isExit es then []
     else match e with Emit n => [n] | Unsubscribe => [] end).
Proof.
  induction es as [|[n|] es IH]; simpl.
  - destruct e as [n|]; [destruct (isTerminal n)|]; done.
  - destruct (isTerminal n); simpl; [done|]. by rewrite IH.
  - done.
Qed.

Lemma tracks_fresh (s : S) : tracks (T:=T) (E:=E) [] (fresh s).
Proof. done. Qed.

Lemma tracks_add es f (w : World S T E) : tracks es w -> tracks es (add f w).
Proof.
  unfold tracks, add. intros (Hs & Hc & Hr).
  destruct (closed (sub w)) eqn:Hcl; simpl; rewrite ?Hcl; auto.
Qed.

Lemma tracks_react es e (w : World S T E) :
  tracks es w -> tracks (es ++ [e]) (react dest e w).
Proof.
  unfold tracks. intros (Hs & Hc & Hr).
  rewrite existsb_app, observed_snoc, <- Hc, <- Hr. simpl.
  rewrite orb_false_r.
  destruct w as [s [c st fs r]]; simpl in *; subst st.
  destruct e as [[v|e|]|];
    unfold react, notify, next, error, complete, unsubscribe, deliver, stop;
    simpl; destruct c; simpl; rewrite ?app_nil_r; done.
Qed.

Lemma tracks_run es0 es (w : World S T E) :
  tracks es0 w -> tracks (es0 ++ es) (run dest es w).
Proof.
  revert es0 w. induction es as [|e es IH]; intros es0 w H; simpl.
  - by rewrite app_nil_r.
  - replace (es0 ++ e :: es) with ((es0 ++ [e]) ++ es)
      by (by rewrite <- app_assoc).
    apply IH. by apply tracks_react.
Qed.

Lemma notifyAll_run ns (w : World S T E) :
  notifyAll dest ns w = run dest (map Emit ns) w.
Proof.
  revert w. induction ns as [|n ns IH]; intros w; simpl; [done|]. apply IH.
Qed.

Lemma tracks_fromSource (src : Source S T E) es (s : S) :
  tracks (map Emit (sync src) ++ es)
         (run dest es (fromSource dest src (fresh s))).
Proof.
  apply tracks_run. unfold fromSource. apply tracks_add.
  rewrite notifyAll_run. apply (tracks_run [] _ _ (tracks_fresh s)).
Qed.

End Facts.
End RxFacts.

(* ===================================================================== *)
(** * The loading gate                                                    *)
(* ===================================================================== *)

Module GateFacts.
Import Rx Store LoadingGate RxFacts.

Section Facts.
Context {R T E : Type}.
Variable obs : Notification T E -> R -> R.

Lemma execFinalizers_onRest (fs : list (R -> R)) (s : Store R) :
  execFinalizers (map onRest fs) s =
  mkStore (loading s) (history s) (fold_left (fun r f => f r) fs (rest s)).
Proof.
  unfold execFinalizers.
  revert s. induction fs as [|f fs IH]; intros [l h r]; [done|].
  cbn [map fold_left]. by rewrite IH.
Qed.

Lemma execFinalizers_snoc (fs : list (Store R -> Store R)) f s :
  execFinalizers (fs ++ [f]) s = f (execFinalizers fs s).
Proof. unfold execFinalizers. by rewrite fold_left_app. Qed.

Lemma entering_notify h0 n (wp wg : World (Store R) T E) :
  entering h0 wp wg ->
  entering h0 (notify (liftObserver obs) n wp) (notify (liftObserver obs) n wg).
Proof.
  destruct wp as [[lp hp rp] subp], wg as [[lg hg rg] subg].
  unfold entering; simpl. intros (-> & Hf & -> & -> & ->).
  destruct subp as [c st fs r]; simpl in *; subst fs.
  destruct n as [v|e|];
    unfold notify, next, error, complete, unsubscribe, deliver, stop; simpl;
    destruct st; simpl; try done; destruct c; simpl; done.
Qed.

Lemma entering_notifyAll h0 ns (wp wg : World (Store R) T E) :
  entering h0 wp wg ->
  entering h0 (notifyAll (liftObserver obs) ns wp)
              (notifyAll (liftObserver obs) ns wg).
Proof.
  revert wp wg. induction ns as [|n ns IH]; intros wp wg H; simpl; [done|].
  apply IH. by apply entering_notify.
Qed.

Lemma entering_subscribed h0 (td : R -> R) (wp wg : World (Store R) T E) :
  entering h0 wp wg ->
  mirrors h0 (add (onRest td) wp)
             (add (Store.setLoading false) (add (onRest td) wg)).
Proof.
  destruct wp as [[lp hp rp] subp], wg as [[lg hg rg] subg].
  unfold entering; simpl. intros (-> & Hf & -> & -> & ->).
  destruct subp as [c st fs r]; simpl in *; subst fs.
  unfold mirrors, add; simpl. destruct c; simpl.
  - repeat split; try done. by rewrite <- app_assoc.
  - repeat split; try done. by exists [td].
Qed.

Lemma mirrors_react h0 e (wp wg : World (Store R) T E) :
  mirrors h0 wp wg ->
  mirrors h0 (react (liftObserver obs) e wp) (react (liftObserver obs) e wg).
Proof.
  destruct wp as [[lp hp rp] [cp sp fp rcp]], wg as [[lg hg rg] [cg sg fg rcg]].
  unfold mirrors; simpl. intros (-> & -> & -> & -> & H).
  destruct cp.
  - destruct H as [-> ->].
    destruct e as [[v|e|]|];
      unfold react, notify, next, error, complete, unsubscribe, deliver, stop;
      simpl; destruct sp; simpl; done.
  - destruct H as (-> & -> & fs & -> & ->).
    destruct e as [[v|e|]|];
      unfold react, notify, next, error, complete, unsubscribe, deliver, stop,
        liftObserver;
      simpl; destruct sp; simpl;
      rewrite ?execFinalizers_snoc, ?execFinalizers_onRest; simpl;
      rewrite <- ?app_assoc; simpl; repeat split; eauto.
Qed.

Lemma mirrors_run h0 es (wp wg : World (Store R) T E) :
  mirrors h0 wp wg ->
  mirrors h0 (run (liftObserver obs) es wp) (run (liftObserver obs) es wg).
Proof.
  revert wp wg. induction es as [|e es IH]; intros wp wg H; simpl; [done|].
  apply IH. by apply mirrors_react.
Qed.

(** The order inside the gate: the flag is raised first, the source is
    subscribed in the store with the raised flag, and the callback that
    lowers it is added last. *)
Lemma setLoading_order (source : Observable (Store R) T E)
    (w : World (Store R) T E) :
  setLoading source w =
  add (Store.setLoading false)
      (source (mkWorld (Store.setLoading true (state w)) (sub w))).
Proof. done. Qed.

(** The run with the gate mirrors the run without it. *)
Lemma gated_mirrors_plain (src : Source R T E) es (s0 : Store R) :
  mirrors (history s0) (plainRun obs src es s0) (gatedRun obs src es s0).
Proof.
  unfold plainRun, gatedRun. apply mirrors_run.
  unfold setLoading, defer, finalize, fromSource; simpl.
  apply entering_subscribed, entering_notifyAll.
  unfold entering; simpl. done.
Qed.

Lemma plain_tracks (src : Source R T E) es (s0 : Store R) :
  tracks (allEvents src es) (plainRun obs src es s0).
Proof. apply (tracks_fromSource (liftObserver obs) (liftSource src)). Qed.

(** C8. Apart from the loading flag (and the record of its calls), the
    store ends up exactly as it does when the source is subscribed without
    the gate, and so does the subscriber. *)
Theorem setLoading_only_touches_flag (src : Source R T E)
    (es : list (Event T E)) (s0 : Store R) :
  rest (state (gatedRun obs src es s0)) = rest (state (plainRun obs src es s0)) /\
  closed (sub (gatedRun obs src es s0)) = closed (sub (plainRun obs src es s0)) /\
  isStopped (sub (gatedRun obs src es s0)) =
    isStopped (sub (plainRun obs src es s0)).
Proof.
  pose proof (gated_mirrors_plain src es s0) as (Hc & Hs & _ & Hr & _).
  done.
Qed.

(** C9. The observer behind the gate is handed exactly what it is handed
    without the gate: the source's notifications in order, up to and
    including the first completion or error, and nothing after an
    unsubscription. *)
Theorem setLoading_pass_through (src : Source R T E) (es : list (Event T E))
    (s0 : Store R) :
  received (sub (gatedRun obs src es s0)) =
    received (sub (plainRun obs src es s0)) /\
  received (sub (gatedRun obs src es s0)) = observed (allEvents src es).
Proof.
  pose proof (gated_mirrors_plain src es s0) as (_ & _ & Hr & _).
  pose proof (plain_tracks src es s0) as (_ & _ & Hx).
  rewrite Hr. done.
Qed.

End Facts.
End GateFacts.

(* ===================================================================== *)
(** * StoriesService.add                                                  *)
(* ===================================================================== *)

Module StoriesFacts.
Import Rx Store Stories RxFacts.

Section Facts.
Context {R Story E : Type}.
Variable storeAdd : Story -> R -> R.
Variable obs : Notification Story E -> R -> R.

Local Abbreviation handler story :=
  (mapTo (A:=nat) story
     (tap (onStory (R:=R) storeAdd) (fun n : Notification Story E => onRest (obs n)))).

Lemma ticks_done story ts (x : Timed (Store R) E) :
  remaining x = None -> finalizers (sub (world x)) = [] ->
  state (world (ticks (handler story) ts x)) = state (world x).
Proof.
  revert x. induction ts as [|[ms|] ts IH]; intros [w r] Hr Hf; simpl in *;
    [done| |].
  - subst r. by apply IH.
  - rewrite IH; simpl; try done.
    + unfold unsubscribe. destruct (closed (sub w)); [done|].
      simpl. by rewrite Hf.
    + unfold unsubscribe. by destruct (closed (sub w)).
Qed.

Lemma ticks_scheduled story ts r (w : World (Store R) nat E) :
  isStopped (sub w) = false -> closed (sub w) = false ->
  finalizers (sub w) = [] ->
  state (world (ticks (handler story) ts (mkTimed w (Some r)))) =
  if fires r ts
  then state (notifyAll (handler story) [Next 0%nat; Complete] w)
  else state w.
Proof.
  intros Hs Hc Hf. revert r.
  induction ts as [|[ms|] ts IH]; intros r; simpl; [done| |].
  - destruct (r <=? ms)%nat; [|apply IH].
    rewrite ticks_done; [done|done|].
    unfold next, complete, unsubscribe, deliver, stop.
    rewrite Hs; simpl. by rewrite Hc.
  - rewrite ticks_done; simpl; try done.
    + unfold unsubscribe. rewrite Hc, Hf. done.
    + unfold unsubscribe. by rewrite Hc.
Qed.

Lemma upstream_loading story es (s0 : Store R) :
  loading (state (upstreamRun storeAdd obs story es s0)) = negb (delivers es).
Proof.
  unfold upstreamRun, delivers.
  pose proof (tracks_run (handler story) [] es _
                (tracks_fresh (fst (add (E:=E) storeAdd story s0)))) as (_ & _ & Hrec).
  simpl in Hrec. rewrite <- Hrec. clear Hrec.
  assert (J : forall es (w : World (Store R) nat E),
    finalizers (sub w) = [] ->
    loading (state w) = negb (existsb isValue (received (sub w))) ->
    loading (state (run (handler story) es w)) =
      negb (existsb isValue (received (sub (run (handler story) es w))))).
  { clear es. induction es as [|e es IH]; intros w Hf Hl; simpl; [done|].
    destruct w as [[l h r] [c st fs rc]]; simpl in *; subst fs l.
    apply IH; destruct e as [[v|e|]|];
      unfold react, notify, next, error, complete, unsubscribe, deliver, stop;
      simpl; destruct st; simpl; try done; destruct c; simpl;
      rewrite ?existsb_app; simpl; rewrite ?orb_true_r, ?orb_false_r; done. }
  apply J; done.
Qed.

(** C10. [add] raises the flag at once, before anybody subscribes; if the
    result is never subscribed the store stays like that; once subscribed,
    the flag is lowered and the story added exactly when the 1000 ms
    timer runs before the subscriber cancels, and otherwise the flag
    stays raised; and fed by any upstream, the flag stays raised unless a
    value gets through - an error or a completion does not lower it. *)
Theorem add_lowers_flag_only_on_success (story : Story) (s0 : Store R) :
  loading (fst (add (E:=E) storeAdd story s0)) = true /\
  session storeAdd obs story None s0 = Store.setLoading true s0 /\
  (forall ts,
     session storeAdd obs story (Some ts) s0 =
     if fires 1000 ts then succeeded storeAdd obs story s0
     else Store.setLoading true s0) /\
  (forall es,
     loading (state (upstreamRun storeAdd obs story es s0)) =
     negb (delivers es)).
Proof.
  split; [done|]. split; [done|]. split; [|intros es; apply upstream_loading].
  intros ts.
  change (session storeAdd obs story (Some ts) s0)
    with (state (world (ticks (handler story) ts
                          (mkTimed (fresh (Store.setLoading true s0))
                                   (Some 1000%nat))))).
  rewrite ticks_scheduled by done.
  destruct (fires 1000 ts); [|done].
  unfold succeeded. simpl. unfold Store.setLoading, onRest. simpl.
  by rewrite <- app_assoc.
Qed.

End Facts.
End StoriesFacts.

(* ===================================================================== *)
(** * The paginator                                                       *)
(* ===================================================================== *)

Module PaginatorFacts.
Import Paginator.

Section Facts.
Context {T : Type}.
Variable cfg : Config.

(** ** The response normalizer *)

Lemma normalize_malformed (raw : RawResponse T) :
  malformed raw -> normalize raw = inl ValidationError.
Proof.
  unfold malformed, normalize. intros [H|[H|H]].
  - by rewrite H.
  - destruct (rawData raw); [|done].
    destruct (Z.ltb_spec 0 (rawPerPage raw)); [lia|done].
  - destruct (rawData raw); [|done].
    destruct (Z.ltb_spec 0 (rawLastPage raw)); [lia|].
    by rewrite andb_false_r.
Qed.

Lemma normalize_inr (raw : RawResponse T) (r : PageRecord T) :
  normalize raw = inr r ->
  rawData raw = Some (data r) /\ perPage r = rawPerPage raw /\
  lastPage r = rawLastPage raw /\ currentPage r = rawCurrentPage raw /\
  total r = default (rawPerPage raw * rawLastPage raw) (rawTotal raw) /\
  0 < perPage r /\ 0 < lastPage r.
Proof.
  unfold normalize. destruct (rawData raw) as [d|]; [|done].
  destruct (Z.ltb_spec 0 (rawPerPage raw)); [|done].
  destruct (Z.ltb_spec 0 (rawLastPage raw)); [|done].
  simpl. intros [= <-]. simpl. repeat split; lia.
Qed.

(** ** The cache only changes when a fetch fills a free key or when it is
       cleared *)






(** ** What a step emits *)

Lemma emits_refl (c : Controller T) : awaitsCurrent c -> emits cfg c c.
Proof.
  intros H. split; [done|]. exists []. by rewrite app_nil_r.
Qed.

Lemma getPage_emits (c : Controller T) :
  exists new,
    emitted (getPage cfg (navPage c) c) = emitted c ++ new /\
    Forall (builtFromRecord cfg) new /\
    Forall (fun x => x.1 = navPage c) new /\
    navPage (getPage cfg (navPage c) c) = navPage c /\
    awaitsCurrent (getPage cfg (navPage c) c).
Proof.
  unfold getPage. destruct (cacheGet (navPage c) (cache c)) as [r|]; simpl.
  - exists [(navPage c, EView (makeView cfg r))]. repeat split; try done.
    + repeat constructor. by exists r.
    + by repeat constructor.
  - exists []. rewrite app_nil_r. repeat split; try done.
    intros id [= <-]. simpl. by rewrite lookup_insert_eq.
Qed.

Lemma setPage_emits n (c : Controller T) :
  awaitsCurrent c -> emits cfg c (setPage cfg n c).
Proof.
  intros H. unfold setPage. destruct (_ && _); [by apply emits_refl|].
  set (c1 := mkController _ _ _ _ _ _ _ _ _ _).
  destruct (getPage_emits c1) as (new & He & Hb & Ht & Hn & Hw).
  change (navPage c1) with (clamp c n) in *.
  split; [done|]. exists new. rewrite Hn. done.
Qed.

Lemma settle_emits id o (c : Controller T) :
  awaitsCurrent c -> emits cfg c (settle cfg id o c).
Proof.
  intros H. unfold settle.
  destruct (pending c !! id) as [p|] eqn:Hp; [|by apply emits_refl].
  case_bool_decide as Ha; simpl.
  - split; [done|]. eexists [_]. repeat split; try done.
    + repeat constructor. unfold builtFromRecord; simpl.
      destruct (match o with Fulfilled raw => _ | Rejected => _ end); eauto.
    + repeat constructor; simpl. specialize (H _ Ha). congruence.
  - split.
    + intros id' Hid'; simpl in *. rewrite lookup_delete_ne; [by apply H|].
      congruence.
    + exists []. by rewrite app_nil_r.
Qed.

Lemma step_emits a (c : Controller T) :
  awaitsCurrent c -> emits cfg c (step cfg a c).
Proof.
  intros H. destruct a; simpl;
    unfold nextPage, prevPage, setFirstPage, setLastPage;
    repeat case_match;
    auto using emits_refl, setPage_emits, settle_emits.
  split; [done|]. exists []. by rewrite app_nil_r.
Qed.

Lemma start_awaitsCurrent : awaitsCurrent (start (T:=T) cfg).
Proof.
  unfold start. destruct (getPage_emits (init (T:=T) cfg))
    as (_ & _ & _ & _ & _ & H). done.
Qed.

Lemma start_emitted : emitted (start (T:=T) cfg) = [].
Proof. done. Qed.

(** Everything reachable from [start]. *)
Lemma steps_invariant acts :
  let c := steps (T:=T) cfg acts (start cfg) in
  awaitsCurrent c /\ Forall (builtFromRecord cfg) (emitted c).
Proof.
  assert (G : forall acts (c : Controller T),
    awaitsCurrent c -> Forall (builtFromRecord cfg) (emitted c) ->
    awaitsCurrent (steps cfg acts c) /\
    Forall (builtFromRecord cfg) (emitted (steps cfg acts c))).
  { clear acts. induction acts as [|a acts IH]; intros c Hw Hb; simpl; [done|].
    destruct (step_emits a c Hw) as (Hw' & new & He & Hb' & _).
    apply IH; [done|]. rewrite He. by apply Forall_app. }
  apply G; [apply start_awaitsCurrent|]. rewrite start_emitted. constructor.
Qed.

Lemma In_pageControls w current last x :
  In x (pageControls w current last) <->
  1 <= x <= last /\ current - Z.of_nat w <= x <= current + Z.of_nat w.
Proof.
  unfold pageControls. rewrite <- list_elem_of_In, list_elem_of_filter.
  rewrite elem_of_seqZ. lia.
Qed.

(** C4. A well-formed raw response without [total] is normalized to a page
    record whose [total] is [perPage * lastPage]. *)
Theorem normalize_defaults_total (d : list T) (per last current : Z) :
  0 < per -> 0 < last ->
  normalize (mkRaw (Some d) per last current None) =
  inr (mkPage d per last current (per * last)).
Proof.
  intros Hp Hl. unfold normalize; simpl.
  destruct (Z.ltb_spec 0 per); [|lia].
  destruct (Z.ltb_spec 0 last); [|lia]. done.
Qed.

(** C7. A malformed raw response - [data] absent, or [perPage] or
    [lastPage] not positive - makes the normalizer fail with a validation
    error; when the fetch that brought it settles the cache is left as it
    was, and the error is handed to the subscriber of that page request
    (if that subscriber is still waiting for it). *)
Theorem malformed_response_not_cached (raw : RawResponse T)
    (c : Controller T) (id : nat) (p : Z) :
  malformed raw ->
  pending c !! id = Some p ->
  normalize raw = inl ValidationError /\
  cache (settle cfg id (Fulfilled raw) c) = cache c /\
  emitted (settle cfg id (Fulfilled raw) c) =
    emitted c ++
      (if bool_decide (active c = Some id)
       then [(p, EError ValidationError)] else []).
Proof.
  intros Hm Hp. pose proof (normalize_malformed raw Hm) as Hn.
  split; [done|]. unfold settle. rewrite Hp, Hn. simpl.
  case_bool_decide; simpl; by rewrite ?app_nil_r.
Qed.


(** ** Whatever is emitted answers the page requested last *)





(** C5. With range computation enabled, every view the subscriber ever
    receives has [from = (currentPage - 1) * perPage + 1] (0 when
    [total = 0]) and [to = min (currentPage * perPage) total]. *)
Theorem emitted_view_range (acts : list (Action T)) (p : Z) (v : View T) :
  range cfg = true ->
  In (p, EView v) (emitted (steps cfg acts (start cfg))) ->
  vFrom v = Some (if vTotal v =? 0 then 0
                  else (vCurrentPage v - 1) * vPerPage v + 1) /\
  vTo v = Some (Z.min (vCurrentPage v * vPerPage v) (vTotal v)).
Proof.
  intros Hr Hin. destruct (steps_invariant acts) as [_ Hb].
  rewrite Forall_forall in Hb. apply list_elem_of_In in Hin.
  destruct (Hb _ Hin) as [r ->].
  unfold makeView; simpl. by rewrite Hr.
Qed.

(** C6, as amended. With page controls enabled, every view the subscriber
    ever receives carries a [pageControls] list that has no value outside
    [1, lastPage], and that contains [currentPage] whenever [currentPage]
    itself lies in [1, lastPage]. *)
Theorem emitted_view_pageControls (acts : list (Action T)) (p : Z)
    (v : View T) :
  pagesControls cfg = true ->
  In (p, EView v) (emitted (steps cfg acts (start cfg))) ->
  exists l, vPageControls v = Some l /\
            (forall x, In x l -> 1 <= x <= vLastPage v) /\
            (1 <= vCurrentPage v <= vLastPage v -> In (vCurrentPage v) l).
Proof.
  intros Hc Hin. destruct (steps_invariant acts) as [_ Hb].
  rewrite Forall_forall in Hb. apply list_elem_of_In in Hin.
  destruct (Hb _ Hin) as [r ->].
  unfold makeView; simpl. rewrite Hc.
  eexists; split; [done|]. split.
  - intros x Hx. apply In_pageControls in Hx. lia.
  - intros Hcur. apply In_pageControls. lia.
Qed.

End Facts.
End PaginatorFacts.

(* ===================================================================== *)
(** * The properties at work on the sample data                           *)
(* ===================================================================== *)

Module SampleFacts.
Import Paginator Samples PaginatorFacts.

(** The documented example: [{perPage:10, lastPage:10, currentPage:3,
    data:[...]}] without [total] is normalized with [total = 100]. *)
Lemma normalize_defaults_total_witness :
  normalize (contactsPage 3) = inr (contactsRecord 3).
Proof.
  apply (normalize_defaults_total [3%nat] 10 10 3); lia.
Defined.

Lemma malformed_response_not_cached_witness :
  normalize noData = inl ValidationError /\
  cache (settle contactsCfg 0 (Fulfilled noData) (start contactsCfg)) =
    cache (start contactsCfg) /\
  emitted (settle contactsCfg 0 (Fulfilled noData) (start contactsCfg)) =
    [(1, EError ValidationError)].
Proof.
  apply (malformed_response_not_cached contactsCfg noData
           (start contactsCfg) 0 1).
  - left. reflexivity.
  - reflexivity.
Defined.


Lemma emitted_view_range_witness :
  vFrom (makeView contactsCfg (contactsRecord 1)) = Some 1 /\
  vTo (makeView contactsCfg (contactsRecord 1)) = Some 10.
Proof.
  apply (emitted_view_range contactsCfg
           [Settle 0 (Fulfilled (contactsPage 1))] 1).
  - reflexivity.
  - left. reflexivity.
Defined.

Lemma emitted_view_pageControls_witness :
  exists l,
    vPageControls (makeView contactsCfg (contactsRecord 1)) = Some l /\
    (forall x, In x l -> 1 <= x <= 10) /\
    (1 <= 1 <= 10 -> In 1 l).
Proof.
  apply (emitted_view_pageControls contactsCfg
           [Settle 0 (Fulfilled (contactsPage 1))] 1
           (makeView contactsCfg (contactsRecord 1))).
  - reflexivity.
  - left. reflexivity.
Defined.

(** The view for page 50 of the ten-page collection: its page controls
    stay within [1, 10] all the same. *)
Example pageControls_beyond_last_stay_in_range :
  forall p v, In (p, EView v) (emitted askedBeyondLast) ->
    vPageControls v = Some [] /\ vCurrentPage v = 50 /\ vLastPage v = 10.
Proof.
  intros p v [[= <- <-]|[]]. repeat split; reflexivity.
Qed.

(** C6 as stated fails: the view for page 50 of a ten-page collection
    cannot list page 50 and stay within [1, 10]. *)
Lemma pageControls_miss_currentPage_beyond_last :
  exists p v,
    pagesControls contactsCfg = true /\
    In (p, EView v) (emitted askedBeyondLast) /\
    ~ exists l, vPageControls v = Some l /\
                In (vCurrentPage v) l /\
                forall x, In x l -> 1 <= x <= vLastPage v.
Proof.
  exists 50, (makeView contactsCfg (mkPage [] 10 10 50 100)).
  split; [reflexivity|]. split; [left; reflexivity|].
  intros (l & _ & Hin & Hall). apply Hall in Hin. simpl in Hin. lia.
Qed.

(** The whole scenario: page 5 then page 7; both fetches resolve, page 5's
    first.  Only page 7 is shown, and both pages are cached. *)
Example five_then_seven_resolved :
  let c := steps contactsCfg
             [Settle 1 (Fulfilled (contactsPage 5));
              Settle 2 (Fulfilled (contactsPage 7))] fiveThenSeven in
  emitted c = [(7, EView (makeView contactsCfg (contactsRecord 7)))] /\
  cache c !! 5 = Some (contactsRecord 5) /\
  cache c !! 7 = Some (contactsRecord 7) /\
  requests c = [1; 5; 7] /\
  isLoading c = false.
Proof. repeat split; reflexivity. Qed.

(** The gate on sample runs: the calls of [setLoading] and what the
    observer receives. *)
Example gate_request_completes :
  let w := LoadingGate.gatedRun listener request
             [Rx.Emit (Rx.Next 7%nat); Rx.Emit Rx.Complete; Rx.Unsubscribe] idle in
  Store.history (Rx.state w) = [true; false] /\
  Rx.received (Rx.sub w) = [Rx.Next 7%nat; Rx.Complete].
Proof. split; reflexivity. Qed.

Example gate_request_fails :
  let w := LoadingGate.gatedRun listener request
             [Rx.Emit (Rx.Error tt); Rx.Emit Rx.Complete] idle in
  Store.history (Rx.state w) = [true; false] /\
  Rx.received (Rx.sub w) = [Rx.Error tt].
Proof. split; reflexivity. Qed.

Example gate_request_cancelled :
  let w := LoadingGate.gatedRun listener request
             [Rx.Unsubscribe; Rx.Unsubscribe; Rx.Emit (Rx.Next 7%nat)] idle in
  Store.history (Rx.state w) = [true; false] /\
  Rx.received (Rx.sub w) = [].
Proof. split; reflexivity. Qed.

Example gate_request_pending :
  let w := LoadingGate.gatedRun listener request [Rx.Emit (Rx.Next 7%nat)] idle in
  Store.loading (Rx.state w) = true /\
  Store.history (Rx.state w) = [true].
Proof. split; reflexivity. Qed.

Example gate_synchronous_source :
  let w := LoadingGate.gatedRun listener ofOne [Rx.Unsubscribe] idle in
  Store.history (Rx.state w) = [true; false] /\
  Rx.received (Rx.sub w) = [Rx.Next 1%nat; Rx.Complete].
Proof. split; reflexivity. Qed.

(** [StoriesService.add] on sample sessions. *)
Example story_added_after_a_second :
  Stories.session (E:=unit) pushStory listener 42%nat
    (Some [Rx.Elapse 400; Rx.Elapse 600; Rx.Cancel]) idle =
  Store.mkStore false [true; false] [42%nat].
Proof. reflexivity. Qed.

Example story_cancelled_in_time :
  Stories.session (E:=unit) pushStory listener 42%nat
    (Some [Rx.Elapse 999; Rx.Cancel; Rx.Elapse 5]) idle =
  Store.mkStore true [true] [].
Proof. reflexivity. Qed.

Example story_upstream_error :
  Rx.state (Stories.upstreamRun pushStory listener 42%nat
              [Rx.Emit (Rx.Error tt)] idle) =
  Store.mkStore true [true] [].
Proof. reflexivity. Qed.

(** The page controls around page 3 of 10, and at the edges. *)
Example pageControls_around_three :
  pageControls 2 3 10 = [1; 2; 3; 4; 5] /\
  pageControls 2 1 10 = [1; 2; 3] /\
  pageControls 2 10 10 = [8; 9; 10] /\
  pageControls 2 50 10 = [].
Proof. repeat split; reflexivity. Qed.

End SampleFacts.

(* ===================================================================== *)
(** * More about the loading gate                                         *)
(* ===================================================================== *)

Module GateUseFacts.
Import Rx Store LoadingGate RxFacts GateFacts GateUse.

Section Facts.
Context {R T E : Type}.

(** ** Callbacks that read the flag *)

Lemma execFinalizers_reading (fs : list (bool -> R -> R)) (s : Store R) :
  loading s = true ->
  execFinalizers (map readingTeardown fs) s =
  mkStore true (history s) (fold_left (fun r f => f true r) fs (rest s)).
Proof.
  unfold execFinalizers.
  revert s. induction fs as [|f fs IH]; intros [l h r] Hl; simpl in *.
  - by subst l.
  - subst l. by rewrite IH.
Qed.

Lemma execFinalizers_told (fs : list (bool -> R -> R)) (s : Store R) :
  execFinalizers (map (fun f => onRest (f true)) fs) s =
  mkStore (loading s) (history s) (fold_left (fun r f => f true r) fs (rest s)).
Proof.
  unfold execFinalizers.
  revert s. induction fs as [|f fs IH]; intros [l h r]; simpl; [done|].
  by rewrite IH.
Qed.

Lemma entering_notify_watched (obs : Notification T E -> bool -> R -> R)
    h0 n (wp wg : World (Store R) T E) :
  entering h0 wp wg ->
  entering h0 (notify (liftObserver (fun n => obs n true)) n wp)
              (notify (readingObserver obs) n wg).
Proof.
  destruct wp as [[lp hp rp] subp], wg as [[lg hg rg] subg].
  unfold entering; simpl. intros (-> & Hf & -> & -> & ->).
  destruct subp as [c st fs r]; simpl in *; subst fs.
  destruct n as [v|e|];
    unfold notify, next, error, complete, unsubscribe, deliver, stop; simpl;
    destruct st; simpl; try done; destruct c; simpl; done.
Qed.

Lemma entering_notifyAll_watched (obs : Notification T E -> bool -> R -> R)
    h0 ns (wp wg : World (Store R) T E) :
  entering h0 wp wg ->
  entering h0 (notifyAll (liftObserver (fun n => obs n true)) ns wp)
              (notifyAll (readingObserver obs) ns wg).
Proof.
  revert wp wg. induction ns as [|n ns IH]; intros wp wg H; simpl; [done|].
  apply IH. by apply entering_notify_watched.
Qed.

Lemma entering_watched h0 (td : bool -> R -> R) (wp wg : World (Store R) T E) :
  isStopped (sub wp) = closed (sub wp) ->
  entering h0 wp wg ->
  watches (add (onRest (td true)) wp)
          (add (Store.setLoading false) (add (readingTeardown td) wg)).
Proof.
  destruct wp as [[lp hp rp] subp], wg as [[lg hg rg] subg].
  unfold entering; simpl. intros Hs (-> & Hf & -> & -> & ->).
  destruct subp as [c st fs r]; simpl in *; subst fs st.
  unfold watches, add; simpl. destruct c; simpl.
  - done.
  - repeat split; try done. by exists [td].
Qed.

Lemma watches_react (obs : Notification T E -> bool -> R -> R) e
    (wp wg : World (Store R) T E) :
  watches wp wg ->
  watches (react (liftObserver (fun n => obs n true)) e wp)
          (react (readingObserver obs) e wg).
Proof.
  destruct wp as [[lp hp rp] [cp sp fp rcp]], wg as [[lg hg rg] [cg sg fg rcg]].
  unfold watches; simpl. intros (-> & -> & -> & -> & H).
  destruct cp.
  - subst sp. by destruct e as [[v|e|]|].
  - destruct H as (-> & fs & -> & ->).
    destruct e as [[v|e|]|];
      unfold react, notify, next, error, complete, unsubscribe, deliver, stop,
        liftObserver, readingObserver;
      simpl; destruct sp; simpl;
      rewrite ?execFinalizers_snoc, ?execFinalizers_told;
      rewrite ?execFinalizers_reading by done; simpl;
      repeat split; eauto.
Qed.

Lemma watches_run (obs : Notification T E -> bool -> R -> R) es
    (wp wg : World (Store R) T E) :
  watches wp wg ->
  watches (run (liftObserver (fun n => obs n true)) es wp)
          (run (readingObserver obs) es wg).
Proof.
  revert wp wg. induction es as [|e es IH]; intros wp wg H; simpl; [done|].
  apply IH. by apply watches_react.
Qed.

(** X1. Every callback of a gated run sees the flag raised: with an
    observer and a source teardown that read the flag, the run ends with
    the same rest of the state, and the observer has received the same,
    as the run of the bare source whose callbacks are told [true]. *)
Theorem gated_callbacks_see_flag_raised
    (obs : Notification T E -> bool -> R -> R)
    (ns : list (Notification T E)) (td : bool -> R -> R)
    (es : list (Event T E)) (s0 : Store R) :
  rest (state (watchedRun obs ns td es s0)) =
    rest (state (plainRun (fun n => obs n true) (mkSource ns (td true)) es s0)) /\
  received (sub (watchedRun obs ns td es s0)) =
    received (sub (plainRun (fun n => obs n true) (mkSource ns (td true)) es s0)).
Proof.
  assert (W : watches
    (plainRun (fun n => obs n true) (mkSource ns (td true)) es s0)
    (watchedRun obs ns td es s0)).
  { unfold plainRun, watchedRun. apply watches_run.
    unfold setLoading, defer, finalize, fromSource; simpl.
    apply (entering_watched (history s0)).
    - rewrite notifyAll_run.
      by destruct (tracks_run (liftObserver (fun n => obs n true)) []
                     (map Emit ns) _ (tracks_fresh s0)) as (? & _).
    - apply entering_notifyAll_watched. unfold entering; simpl. done. }
  destruct W as (_ & _ & Hr & Hs & _). done.
Qed.

(** ** The flag over the whole run *)

Lemma raisedFor_entering h0 (td : bool -> R -> R)
    (wp wg : World (Store R) T E) :
  isStopped (sub wp) = closed (sub wp) ->
  entering h0 wp wg ->
  raisedFor h0 (add (onRest (td true)) wp)
            (add (Store.setLoading false) (add (readingTeardown td) wg)).
Proof.
  intros Hs He. split; [by apply (entering_watched h0)|].
  destruct wp as [[lp hp rp] subp], wg as [[lg hg rg] subg].
  unfold entering in He; simpl in *. destruct He as (-> & Hf & -> & -> & ->).
  destruct subp as [c st fs r]; simpl in *; subst fs st.
  unfold add; simpl. destruct c; simpl; [|done].
  split; [done|]. by rewrite <- app_assoc.
Qed.

Lemma raisedFor_react (obs : Notification T E -> bool -> R -> R) h0 e
    (wp wg : World (Store R) T E) :
  raisedFor h0 wp wg ->
  raisedFor h0 (react (liftObserver (fun n => obs n true)) e wp)
            (react (readingObserver obs) e wg).
Proof.
  intros [Hw Hh]. split; [by apply watches_react|].
  destruct wp as [[lp hp rp] [cp sp fp rcp]], wg as [[lg hg rg] [cg sg fg rcg]].
  unfold watches in Hw; simpl in *. destruct Hw as (-> & -> & -> & -> & H).
  destruct cp.
  - subst sp. destruct Hh as [-> ->]. by destruct e as [[v|e|]|].
  - destruct H as (-> & fs & -> & ->). subst hg.
    destruct e as [[v|e|]|];
      unfold react, notify, next, error, complete, unsubscribe, deliver, stop,
        liftObserver, readingObserver;
      simpl; destruct sp; simpl;
      rewrite ?execFinalizers_snoc;
      rewrite ?execFinalizers_reading by done; simpl;
      rewrite <- ?app_assoc; done.
Qed.

Lemma raisedFor_run (obs : Notification T E -> bool -> R -> R) h0 es
    (wp wg : World (Store R) T E) :
  raisedFor h0 wp wg ->
  raisedFor h0 (run (liftObserver (fun n => obs n true)) es wp)
            (run (readingObserver obs) es wg).
Proof.
  revert wp wg. induction es as [|e es IH]; intros wp wg H; simpl; [done|].
  apply IH. by apply raisedFor_react.
Qed.

(** C1. For every source - whatever it pushes inside [subscribe] and
    whatever its teardown does - every observer, every later course of
    events and every initial store: the gate calls [setLoading(true)]
    once, before the work starts, so that every callback of the run,
    from the first notification to the source's teardown, sees the flag
    raised (the run leaves the same rest of the state and hands the
    observer the same as the bare source whose callbacks are told that
    the flag is [true]); the flag stays raised as long as the work has
    not ended; and once it has ended - by completion, by an error or by
    unsubscription - the flag has been lowered by exactly one call of
    [setLoading(false)], made after the last callback. *)
Theorem setLoading_flag_raised_over_the_run
    (obs : Notification T E -> bool -> R -> R)
    (ns : list (Notification T E)) (td : bool -> R -> R)
    (es : list (Event T E)) (s0 : Store R) :
  let src := mkSource ns (td true) in
  let w := watchedRun obs ns td es s0 in
  let bare := plainRun (fun n => obs n true) src es s0 in
  closed (sub w) = exited src es /\
  loading (state w) = negb (exited src es) /\
  history (state w) =
    history s0 ++ true :: (if exited src es then [false] else []) /\
  rest (state w) = rest (state bare) /\
  received (sub w) = received (sub bare).
Proof.
  intros src w bare.
  assert (W : raisedFor (history s0) bare w).
  { unfold bare, w, plainRun, watchedRun. apply raisedFor_run.
    unfold setLoading, defer, finalize, fromSource; simpl.
    apply raisedFor_entering.
    - rewrite notifyAll_run.
      by destruct (tracks_run (liftObserver (fun n => obs n true)) []
                     (map Emit ns) _ (tracks_fresh s0)) as (? & _).
    - apply entering_notifyAll_watched. unfold entering; simpl. done. }
  destruct W as ((Hc & _ & Hr & Hs & Hopen) & Hh).
  pose proof (plain_tracks (fun n => obs n true) src es s0) as (_ & Hx & _).
  fold bare in Hx. fold (exited src es) in Hx.
  rewrite Hc, Hx in *. destruct (exited src es).
  - destruct Hh as [-> ->]. done.
  - destruct Hopen as [-> _]. rewrite Hh. done.
Qed.

(** ** Subscribing again *)

Lemma gated_flag_and_history (obs : Notification T E -> R -> R)
    (src : Source R T E) es (s0 : Store R) :
  loading (state (gatedRun obs src es s0)) = negb (exited src es) /\
  history (state (gatedRun obs src es s0)) = history s0 ++ cycle (src, es).
Proof.
  pose proof (gated_mirrors_plain obs src es s0) as (_ & _ & _ & _ & H).
  pose proof (plain_tracks obs src es s0) as (_ & Hx & _).
  fold (exited src es) in Hx. unfold cycle; simpl.
  rewrite Hx in H. destruct (exited src es).
  - destruct H as [-> ->]. done.
  - destruct H as (-> & -> & _). done.
Qed.

(** X2. The gated observable is cold: every subscription raises the flag
    anew and lowers it when that subscription ends.  After any number of
    subscriptions one after the other, the calls of [setLoading] are the
    cycles of the single subscriptions in order, and the flag tells
    whether the last subscription is still running. *)
Theorem resubscription_cycles_flag (obs : Notification T E -> R -> R)
    (runs : list (Source R T E * list (Event T E))) (s0 : Store R) :
  history (resubscribe obs runs s0) = history s0 ++ concat (map cycle runs) /\
  loading (resubscribe obs runs s0) =
    match last runs with
    | Some r => negb (exited r.1 r.2)
    | None => loading s0
    end.
Proof.
  revert s0. induction runs as [|r runs IH] using rev_ind; intros s0.
  - simpl. by rewrite app_nil_r.
  - unfold resubscribe. rewrite fold_left_app. simpl.
    fold (resubscribe obs runs s0).
    destruct r as [src es]. simpl.
    destruct (gated_flag_and_history obs src es (resubscribe obs runs s0))
      as [Hl Hh].
    rewrite Hh, Hl, (proj1 (IH s0)), map_app, concat_app, last_snoc. simpl.
    by rewrite app_nil_r, <- app_assoc.
Qed.

(** ** Two gates on one store *)

Section SharedOwner.
Variable obsA obsB : Notification T E -> R -> R.
Variable tdA tdB : R -> R.

Lemma sharedStart_invariant (s0 : Store R) :
  sharedInvariant tdA tdB (history s0) (sharedStart obsA obsB tdA tdB s0).
Proof.
  unfold sharedInvariant, sharedStart, gateOpenOrClosed; simpl.
  repeat split. by rewrite <- app_assoc.
Qed.

Lemma shared_step h0 g e (x : Shared) :
  sharedInvariant tdA tdB h0 x ->
  let x' := withGate g (react (observerOf obsA obsB g) e) x in
  sharedInvariant tdA tdB h0 x' /\
  closed (subA x') = closed (subA x) || (sameGate GateA g && isExit e) /\
  closed (subB x') = closed (subB x) || (sameGate GateB g && isExit e).
Proof.
  destruct x as [[l h r] [ca sa fa ra] [cb sb fb rb]].
  unfold sharedInvariant, gateOpenOrClosed; simpl.
  intros (HA & HB & -> & ->).
  destruct ca, cb; simpl in *;
    repeat match goal with
           | H : _ /\ _ |- _ => destruct H as [? ?]
           end; subst;
    destruct g, e as [[v|e|]|];
    unfold withGate, react, notify, next, error, complete, unsubscribe,
      deliver, stop, observerOf, liftObserver, execFinalizers; simpl;
    rewrite <- ?app_assoc; simpl; done.
Qed.

Lemma shared_steps h0 es (x : Shared) :
  sharedInvariant tdA tdB h0 x ->
  let x' := fold_left
              (fun x ge => withGate ge.1 (react (observerOf obsA obsB ge.1) ge.2) x)
              es x in
  sharedInvariant tdA tdB h0 x' /\
  closed (subA x') = closed (subA x) || endedAt GateA es /\
  closed (subB x') = closed (subB x) || endedAt GateB es.
Proof.
  revert x. induction es as [|[g e] es IH]; intros x Hx; simpl.
  - by rewrite !orb_false_r.
  - destruct (shared_step h0 g e x Hx) as (Hx' & HA & HB).
    destruct (IH _ Hx') as (Hx'' & HA' & HB').
    split; [done|]. simpl in *. rewrite HA', HB', HA, HB.
    by rewrite !orb_assoc.
Qed.

(** X3. Two gated requests on one store, both started before either ends:
    whatever the order of the events, the flag is lowered as soon as one
    of the two has ended - it no longer tells that the other one is still
    running - and [setLoading(false)] is called once per request that has
    ended. *)
Theorem shared_flag_drops_with_first (es : list (Gate * Event T E))
    (s0 : Store R) :
  let x := sharedRun obsA obsB tdA tdB es s0 in
  closed (subA x) = endedAt GateA es /\
  closed (subB x) = endedAt GateB es /\
  loading (store x) = negb (endedAt GateA es || endedAt GateB es) /\
  history (store x) =
    history s0 ++ true :: true ::
      (if endedAt GateA es then [false] else []) ++
      (if endedAt GateB es then [false] else []).
Proof.
  destruct (shared_steps (history s0) es _ (sharedStart_invariant s0))
    as ((_ & _ & Hl & Hh) & HA & HB).
  simpl in HA, HB. unfold sharedRun. simpl.
  rewrite Hl, Hh, HA, HB. done.
Qed.

End SharedOwner.

End Facts.
End GateUseFacts.

(* ===================================================================== *)
(** * More about StoriesService.add                                       *)
(* ===================================================================== *)

Module StoriesUseFacts.
Import Rx Store Stories StoriesFacts StoriesUse.

Section Facts.
Context {R Story E : Type}.
Variable storeAdd : Story -> R -> R.
Variable obs : Notification Story E -> R -> R.

(** One subscription of the observable that [add] returns, on any store. *)
Lemma subscription_outcome (story : Story) ts (s : Store R) :
  state (world
    (ticks (mapTo story
              (tap (onStory storeAdd)
                 (fun n : Notification Story E => onRest (obs n))))
       ts
       (subscribeTimer
          (pipe (pipe (timer (E:=E) 1000) (mapTo story))
             (tap (onStory storeAdd)))
          (fresh s)))) =
  if fires 1000 ts
  then mkStore false (history s ++ [false])
         (storyArrives storeAdd obs story (rest s))
  else s.
Proof.
  etransitivity;
    [exact (ticks_scheduled storeAdd obs story ts 1000 (fresh s)
              eq_refl eq_refl eq_refl)|].
  destruct (fires 1000 ts); done.
Qed.

(** ** Two subscriptions at a time *)

Local Abbreviation handler story :=
  (mapTo (A:=nat) story
     (tap (onStory (R:=R) storeAdd)
        (fun n : Notification Story E => onRest (obs n)))).

Lemma firesFrom_cons left t ts :
  Nat.b2n (firesFrom left (t :: ts)) =
  (Nat.b2n (firesFrom left [t]) + Nat.b2n (firesFrom (leftAfter left t) ts))%nat.
Proof.
  destruct left as [r|], t as [ms|]; simpl; try done.
  destruct (r <=? ms)%nat; done.
Qed.

Lemma firesFrom_app left ts ts' :
  Nat.b2n (firesFrom left (ts ++ ts')) =
  (Nat.b2n (firesFrom left ts) +
   Nat.b2n (firesFrom (fold_left leftAfter ts left) ts'))%nat.
Proof.
  revert left. induction ts as [|t ts IH]; intros left; simpl.
  - by destruct left.
  - rewrite firesFrom_cons, IH, (firesFrom_cons left t ts). lia.
Qed.

Lemma tick_one story t (s : Store R) sb left :
  scheduledOrOver sb left ->
  let y := tick (handler story) t (mkTimed (mkWorld s sb) left) in
  scheduledOrOver (sub (world y)) (remaining y) /\
  remaining y = leftAfter left t /\
  state (world y) =
    Nat.iter (Nat.b2n (firesFrom left [t])) (firedOnce storeAdd obs story) s.
Proof.
  destruct sb as [c st fs rc], s as [l h r]. unfold scheduledOrOver; simpl.
  intros [-> Hl].
  destruct left as [n|], t as [ms|]; simpl.
  - destruct Hl as [-> ->]. destruct (n <=? ms)%nat; simpl; done.
  - destruct Hl as [-> ->]. done.
  - done.
  - unfold unsubscribe; simpl. destruct c; done.
Qed.

Lemma ticks_one story ts (s : Store R) sb left :
  scheduledOrOver sb left ->
  let y := ticks (handler story) ts (mkTimed (mkWorld s sb) left) in
  scheduledOrOver (sub (world y)) (remaining y) /\
  remaining y = fold_left leftAfter ts left /\
  state (world y) =
    Nat.iter (Nat.b2n (firesFrom left ts)) (firedOnce storeAdd obs story) s.
Proof.
  revert s sb left. induction ts as [|t ts IH]; intros s sb left H; simpl.
  - split; [done|]. split; [done|]. by destruct left.
  - destruct (tick_one story t s sb left H) as (H1 & H2 & H3).
    destruct (tick (handler story) t (mkTimed (mkWorld s sb) left))
      as [[s' sb'] left']; simpl in *. subst left'.
    destruct (IH s' sb' _ H1) as (H4 & H5 & H6).
    split; [done|]. split; [done|].
    rewrite H6, H3, <- Nat.iter_add. f_equal.
    rewrite (firesFrom_cons left t ts). lia.
Qed.

Lemma tick2_one story t (x : Pair) :
  scheduledOrOver (firstSub x) (firstLeft x) ->
  scheduledOrOver (secondSub x) (secondLeft x) ->
  let x' := tick2 (handler story) t x in
  scheduledOrOver (firstSub x') (firstLeft x') /\
  scheduledOrOver (secondSub x') (secondLeft x') /\
  firstLeft x' = fold_left leftAfter (firstSees [t]) (firstLeft x) /\
  secondLeft x' = fold_left leftAfter (secondSees [t]) (secondLeft x) /\
  shared x' =
    Nat.iter
      (Nat.b2n (firesFrom (firstLeft x) (firstSees [t])) +
       Nat.b2n (firesFrom (secondLeft x) (secondSees [t])))
      (firedOnce storeAdd obs story) (shared x).
Proof.
  destruct x as [s sb1 l1 sb2 l2].
  cbn [firstSub firstLeft secondSub secondLeft shared]. intros H1 H2.
  destruct t as [ms| |]; unfold tick2; cbv zeta;
    cbn [firstSub firstLeft secondSub secondLeft shared].
  - destruct (tick_one story (Elapse ms) s sb1 l1 H1) as (A1 & A2 & A3).
    destruct (tick (handler story) (Elapse ms) (mkTimed (mkWorld s sb1) l1))
      as [[s' sb1'] l1'].
    cbn [world remaining state sub] in *. subst l1'.
    destruct (tick_one story (Elapse ms) s' sb2 l2 H2) as (B1 & B2 & B3).
    destruct (tick (handler story) (Elapse ms) (mkTimed (mkWorld s' sb2) l2))
      as [[s'' sb2'] l2'].
    cbn [world remaining state sub] in *. subst l2'.
    repeat split; try done; try apply A1; try apply B1.
    rewrite B3, A3, <- Nat.iter_add. f_equal. simpl. lia.
  - destruct (tick_one story Cancel s sb1 l1 H1) as (A1 & A2 & A3).
    destruct (tick (handler story) Cancel (mkTimed (mkWorld s sb1) l1))
      as [[s' sb1'] l1'].
    cbn [world remaining state sub] in *. subst l1'.
    repeat split; try done; try apply A1; try apply H2.
    rewrite A3. f_equal. simpl. destruct l2; simpl; lia.
  - destruct (tick_one story Cancel s sb2 l2 H2) as (B1 & B2 & B3).
    destruct (tick (handler story) Cancel (mkTimed (mkWorld s sb2) l2))
      as [[s' sb2'] l2'].
    cbn [world remaining state sub] in *. subst l2'.
    repeat split; try done; try apply B1; try apply H1.
    rewrite B3. f_equal. simpl. destruct l1; simpl; lia.
Qed.

Lemma pair_run story ts (x : Pair) :
  scheduledOrOver (firstSub x) (firstLeft x) ->
  scheduledOrOver (secondSub x) (secondLeft x) ->
  shared (fold_left (fun x t => tick2 (handler story) t x) ts x) =
  Nat.iter
    (Nat.b2n (firesFrom (firstLeft x) (firstSees ts)) +
     Nat.b2n (firesFrom (secondLeft x) (secondSees ts)))
    (firedOnce storeAdd obs story) (shared x).
Proof.
  revert x. induction ts as [|t ts IH]; intros x H1 H2.
  - simpl. by destruct (firstLeft x), (secondLeft x).
  - cbn [fold_left].
    destruct (tick2_one story t x H1 H2) as (A1 & A2 & A3 & A4 & A5).
    rewrite IH by done. rewrite A3, A4, A5, <- Nat.iter_add. f_equal.
    replace (firstSees (t :: ts)) with (firstSees [t] ++ firstSees ts)
      by (unfold firstSees; simpl; by rewrite app_nil_r).
    replace (secondSees (t :: ts)) with (secondSees [t] ++ secondSees ts)
      by (unfold secondSees; simpl; by rewrite app_nil_r).
    rewrite !firesFrom_app. lia.
Qed.

Lemma firedOnce_iter story n (s : Store R) :
  loading (Nat.iter n (firedOnce storeAdd obs story) s) =
    (if n is O then loading s else false) /\
  history (Nat.iter n (firedOnce storeAdd obs story) s) =
    history s ++ repeat false n.
Proof.
  induction n as [|n [IHl IHh]]; simpl.
  - by rewrite app_nil_r.
  - split; [done|]. rewrite IHh, <- app_assoc. f_equal.
    symmetry. apply repeat_cons.
Qed.

(** X4. The observable that [add] returns is cold, and the flag is raised
    by the call of [add], not by a subscription: subscribed a second
    time, whether the first subscription is over or its timer is still
    running, each subscription runs its own timer; the store ends as
    [add] left it with the [tap] callback run once per timer that got to
    run - the story is added once per such timer - and [setLoading(true)]
    is not called again. *)
Theorem resubscribed_story_is_added_again (story : Story)
    (ts1 : list Tick) (ts2 : list Tick2) (s0 : Store R) :
  let ran :=
    (Nat.b2n (fires 1000 (ts1 ++ firstSees ts2)) +
     Nat.b2n (fires 1000 (secondSees ts2)))%nat in
  subscribeAgain storeAdd obs story ts1 ts2 s0 =
    Nat.iter ran (firedOnce storeAdd obs story) (Store.setLoading true s0) /\
  loading (subscribeAgain storeAdd obs story ts1 ts2 s0) =
    (if ran is O then true else false) /\
  history (subscribeAgain storeAdd obs story ts1 ts2 s0) =
    history s0 ++ true :: repeat false ran.
Proof.
  intros ran.
  assert (H : subscribeAgain storeAdd obs story ts1 ts2 s0 =
              Nat.iter ran (firedOnce storeAdd obs story)
                (Store.setLoading true s0)).
  { unfold subscribeAgain. cbn -[ticks fires tick2 firedOnce Nat.iter].
    destruct (ticks_one story ts1 (Store.setLoading true s0)
                (mkSubscriber false false [] []) (Some 1000%nat))
      as (A1 & A2 & A3); [done|].
    unfold subscribeTimer, fresh; cbn -[ticks fires tick2 firedOnce Nat.iter].
    destruct (ticks (handler story) ts1 _) as [[s' sb'] left'] eqn:Ht;
      simpl in *. subst left'.
    rewrite pair_run by done. simpl. rewrite A3, <- Nat.iter_add. f_equal.
    unfold ran.
    change (fires 1000 (ts1 ++ firstSees ts2))
      with (firesFrom (Some 1000%nat) (ts1 ++ firstSees ts2)).
    rewrite firesFrom_app. simpl. lia. }
  rewrite H. destruct (firedOnce_iter story ran (Store.setLoading true s0))
    as [Hl Hh].
  split; [done|]. rewrite Hl, Hh. simpl. split; [done|].
  by rewrite <- app_assoc.
Qed.

Lemma fires_elapsed r ts :
  (0 < r)%nat -> fires r ts = (r <=? elapsed ts)%nat.
Proof.
  revert r. induction ts as [|[ms|] ts IH]; intros r Hr; simpl.
  - symmetry. apply Nat.leb_gt. lia.
  - destruct (Nat.leb_spec r ms) as [Hle|Hgt].
    + symmetry. apply Nat.leb_le. lia.
    + rewrite IH by lia.
      destruct (Nat.leb_spec (r - ms) (elapsed ts));
        symmetry; [apply Nat.leb_le|apply Nat.leb_gt]; lia.
  - symmetry. apply Nat.leb_gt. lia.
Qed.

(** X5. Only the time that has passed before the subscriber cancels
    counts, not how it is split into intervals: the story is added and
    the flag lowered exactly when that time is at least 1000 ms. *)
Theorem story_added_iff_a_second_elapses (story : Story) (ts : list Tick)
    (s0 : Store R) :
  session storeAdd obs story (Some ts) s0 =
  if (1000 <=? elapsed ts)%nat
  then succeeded storeAdd obs story s0
  else Store.setLoading true s0.
Proof.
  rewrite <- fires_elapsed by lia.
  unfold session. cbn -[ticks fires].
  rewrite (subscription_outcome story ts).
  destruct (fires 1000 ts); [|done].
  unfold succeeded, storyArrives. simpl. by rewrite <- app_assoc.
Qed.

End Facts.
End StoriesUseFacts.

(* ===================================================================== *)
(** * The page components                                                 *)
(* ===================================================================== *)

Module SwitchMapFacts.
Import Rx SwitchMap.

Section Facts.
Context {St A V E : Type}.
Variable project : A -> St -> St.
Variable innerTeardown : nat -> St -> St.
Variable dest : Notification V E -> St -> St.

Lemma liveIsLast_subscribed (s : St) :
  liveIsLast (V:=V) (E:=E) (subscribed s).
Proof. repeat split; done. Qed.

Lemma liveIsLast_react e (x : Switched St V E) :
  liveIsLast x -> liveIsLast (react project innerTeardown dest e x).
Proof.
  destruct x as [[s [c st fs rc]] a m od].
  unfold liveIsLast; simpl. intros (Hlive & Hstop & ->).
  unfold react; simpl. destruct st; [done|].
  destruct e as [[v|err|]|k [v|err|]|]; simpl;
    repeat first [ case_bool_decide | case_match ]; simplify_eq/=;
    unfold terminate, notify, next, error, complete, unsubscribe, deliver,
      stop; simpl;
    repeat case_match; simplify_eq/=;
    repeat split; try done; try (intros ? [= <-]; done); eauto.
Qed.

Lemma liveIsLast_run es (x : Switched St V E) :
  liveIsLast x -> liveIsLast (run project innerTeardown dest es x).
Proof.
  revert x. induction es as [|e es IH]; intros x H; simpl; [done|].
  apply IH. by apply liveIsLast_react.
Qed.

(** A notification of an inner observable that is not the one made last
    changes nothing. *)
Lemma react_stale_inner k n (x : Switched St V E) :
  liveIsLast x -> (S k < made x)%nat ->
  react project innerTeardown dest (Inner k n) x = x.
Proof.
  intros (Hlive & _ & _) Hk. unfold react.
  destruct (isStopped (sub (down x))); [done|].
  case_bool_decide as Ha; [|done].
  apply Hlive in Ha. lia.
Qed.


End Facts.
End SwitchMapFacts.

Module ContactsPageFacts.
Import Rx SwitchMap SwitchMapFacts ContactsPage.

Section Basic.
Context {St V E : Type}.
Variable getPage : PageRequest -> St -> St.
Variable innerTeardown : nat -> St -> St.
Variable dest : Notification V E -> St -> St.

(** X6. Once [pageChanges] has emitted a newer page, whatever the
    observable that [getPage] returned for an earlier page still pushes -
    a value, an error or its completion - changes nothing: it is not
    passed on to [pagination$] and it has no other effect. *)
Theorem stale_page_result_is_dropped (es : list (SwitchEvent Z V E))
    (s : St) (k : nat) (n : Notification V E) :
  (S k < made (pagination getPage innerTeardown dest es s))%nat ->
  react (projectPage getPage) innerTeardown dest (Inner k n)
        (pagination getPage innerTeardown dest es s) =
  pagination getPage innerTeardown dest es s.
Proof.
  intros Hk. apply react_stale_inner; [|done].
  apply liveIsLast_run, liveIsLast_subscribed.
Qed.

End Basic.

(** ** A paginator that records what it is asked *)

Section Recorded.
Context {A Req V E : Type}.
Variable req : A -> Req.

Local Abbreviation rproject :=
  (fun (a : A) (t : list (Call Req)) => t ++ [CallGetPage (req a)]).
Local Abbreviation rteardown :=
  (fun (k : nat) (t : list (Call Req)) => t ++ [CallTeardown k]).
Local Abbreviation rdest :=
  (fun (_ : Notification V E) (t : list (Call Req)) => t).

Lemma recorded_react_bracketed e (x : Switched (list (Call Req)) V E) :
  liveIsLast x ->
  Bracketed (made x) (isLive x) (state (down x)) ->
  Bracketed (made (react rproject rteardown rdest e x))
            (isLive (react rproject rteardown rdest e x))
            (state (down (react rproject rteardown rdest e x))).
Proof.
  destruct x as [[s [c st fs rc]] a m od].
  unfold liveIsLast, isLive; simpl. intros (Hlive & Hstop & ->) HB.
  unfold react; simpl. destruct st; [done|].
  assert (Hend : forall k, a = Some k ->
            Bracketed m false (s ++ [CallTeardown k])).
  { intros k ->. rewrite (Hlive k eq_refl) in *. by constructor. }
  destruct e as [[v|err|]|k [v|err|]|]; simpl;
    repeat first [ case_bool_decide | case_match ]; simplify_eq/=;
    unfold terminate, endInner, notify, next, error, complete, unsubscribe,
      deliver, stop, execFinalizers; simpl;
    repeat case_match; simplify_eq/=;
    try done; eauto using @Bracketed.
Qed.

Lemma recorded_run_bracketed es (x : Switched (list (Call Req)) V E) :
  liveIsLast x ->
  Bracketed (made x) (isLive x) (state (down x)) ->
  Bracketed (made (run rproject rteardown rdest es x))
            (isLive (run rproject rteardown rdest es x))
            (state (down (run rproject rteardown rdest es x))).
Proof.
  revert x. induction es as [|e es IH]; intros x Hl HB; simpl; [done|].
  apply IH; [by apply liveIsLast_react|by apply recorded_react_bracketed].
Qed.

End Recorded.

(** X7. The basic component never has two subscriptions to results of
    [getPage] at a time: in the record of what it asks of the paginator,
    every call of [getPage] but the last is followed by the teardown of
    what it returned before the next call is made, and no subscription is
    torn down twice. *)
Theorem requests_never_overlap {V E : Type} (es : list (SwitchEvent Z V E)) :
  Bracketed (made (recorded es)) (isLive (recorded es))
            (state (down (recorded es))).
Proof.
  apply (recorded_run_bracketed (fun p => mkPageRequest p 10)).
  - apply liveIsLast_subscribed.
  - constructor.
Qed.

(** ** The advanced component *)

Section Advanced.
Context {V E : Type}.

Lemma followsSelection_subscribe (replayed : option Z) :
  followsSelection (V:=V) (E:=E) [] (recordedFiltered replayed []).
Proof.
  unfold followsSelection, recordedFiltered, filtered, subscribeCombined,
    filtersEmit, emitCombined; simpl.
  destruct replayed as [p|]; simpl; repeat split; try done;
    unfold carriesSelected; simpl; repeat constructor; done.
Qed.

Lemma sinceClear_snoc {Req : Type} (t : list (Call Req)) (c : Call Req) :
  sinceClear (t ++ [c]) =
  match c with
  | CallGetPage r => sinceClear t ++ [r]
  | CallClearCache => []
  | CallTeardown _ => sinceClear t
  end.
Proof. unfold sinceClear. by rewrite fold_left_app. Qed.

Lemma clears_snoc {Req : Type} (t : list (Call Req)) (c : Call Req) :
  clears (t ++ [c]) = (clears t + (if isClear c then 1 else 0))%nat.
Proof.
  unfold clears. rewrite List.filter_app, length_app. simpl.
  by destruct (isClear c).
Qed.

Lemma selectedSortBy_snoc (ins : list (Input V E)) (i : Input V E) :
  selectedSortBy (ins ++ [i]) =
  match i with SortByChanges s => s | _ => selectedSortBy ins end.
Proof. unfold selectedSortBy. by rewrite fold_left_app. Qed.

Lemma selectedPerPage_snoc (ins : list (Input V E)) (i : Input V E) :
  selectedPerPage (ins ++ [i]) =
  match i with PerPageChanges n => n | _ => selectedPerPage ins end.
Proof. unfold selectedPerPage. by rewrite fold_left_app. Qed.

Lemma filterChanges_snoc (ins : list (Input V E)) (i : Input V E) :
  filterChanges (ins ++ [i]) =
  (filterChanges ins + (if isFilterChange i then 1 else 0))%nat.
Proof.
  unfold filterChanges. rewrite List.filter_app, length_app. simpl.
  by destruct (isFilterChange i).
Qed.

Lemma followsSelection_handle (ins : list (Input V E)) (i : Input V E)
    (x : Combined (list (Call FilteredRequest)) V E) :
  followsSelection ins x ->
  followsSelection (ins ++ [i])
    (handle (fun t => t ++ [CallClearCache])
            (fun r t => t ++ [CallGetPage r])
            (fun k t => t ++ [CallTeardown k])
            (fun _ t => t) i x).
Proof.
  destruct x as [lp ls lpp [[t [c st fs rc]] a m od]].
  unfold followsSelection; simpl. intros (-> & -> & H).
  unfold handle; simpl. destruct st; [done|].
  destruct (H eq_refl) as (-> & -> & HC & HN). clear H.
  rewrite selectedSortBy_snoc, selectedPerPage_snoc, filterChanges_snoc.
  unfold carriesSelected in *.
  destruct i as [p|s|n|k [v|err|]|];
    unfold filtersEmit, emitCombined, react, terminate, endInner, notify, next,
      error, complete, unsubscribe, deliver, stop, execFinalizers,
      projectFiltered; simpl;
    repeat first [ case_bool_decide | case_match ]; simplify_eq/=;
    (split; [done|split; [done|]]); intros Hst; try done;
    rewrite ?sinceClear_snoc, ?clears_snoc; simpl;
    rewrite ?Forall_app, ?Forall_singleton; simpl;
    repeat split; try done; try lia; try constructor.
Qed.

Lemma followsSelection_filtered (replayed : option Z) (ins : list (Input V E)) :
  followsSelection ins (recordedFiltered replayed ins).
Proof.
  induction ins as [|i ins IH] using rev_ind.
  - apply followsSelection_subscribe.
  - unfold recordedFiltered, filtered in *. rewrite fold_left_app. simpl.
    by apply followsSelection_handle.
Qed.

(** X8. In the advanced component, as long as [pagination$] is subscribed:
    every request handed to [getPage] since the cache was last cleared
    asks for the sort key and the page size selected last, so the cache
    never holds pages fetched under other filters; and the cache has been
    cleared once at the start and once per change of a filter, never by a
    change of page. *)
Theorem requests_since_clear_carry_filters (replayed : option Z)
    (ins : list (Input V E)) :
  isStopped (sub (down (switched (recordedFiltered replayed ins)))) = false ->
  carriesSelected (selectedSortBy ins) (selectedPerPage ins)
    (state (down (switched (recordedFiltered replayed ins)))) /\
  clears (state (down (switched (recordedFiltered replayed ins)))) =
    S (filterChanges ins).
Proof.
  intros Hs.
  destruct (followsSelection_filtered replayed ins) as (_ & _ & H).
  destruct (H Hs) as (_ & _ & HC & HN). done.
Qed.

End Advanced.

End ContactsPageFacts.

(* ===================================================================== *)
(** * A page change while a fetch is pending                              *)
(* ===================================================================== *)

Module RaceFacts.
Import Rx SwitchMap SwitchMapFacts ContactsPage Paginator PaginatorFacts.

Section Facts.
Context {St V E T : Type}.
Variable getPage : PageRequest -> St -> St.
Variable innerTeardown : nat -> St -> St.
Variable dest : Notification V E -> St -> St.
Variable cfg : Config.


End Facts.
End RaceFacts.

(* ===================================================================== *)
(** * The store middleware                                                *)
(* ===================================================================== *)

Module MiddlewareFacts.
Import Middleware.

Section Facts.
Context {Details : Type}.
Variable limitedPrice : Z.

(** X9. Provided [limitedPrice] is not itself 100, no book comes out of
    [akitaPreAddEntity] with price 100, running the hook on its own
    result changes nothing any more, and nothing but the price is ever
    touched. *)
Theorem akitaPreAddEntity_caps_once (book : Book Details) :
  limitedPrice <> 100 ->
  price (akitaPreAddEntity limitedPrice book) <> 100 /\
  akitaPreAddEntity limitedPrice (akitaPreAddEntity limitedPrice book) =
    akitaPreAddEntity limitedPrice book /\
  details (akitaPreAddEntity limitedPrice book) = details book.
Proof.
  intros Hl. unfold akitaPreAddEntity.
  destruct (Z.eqb_spec (price book) 100) as [He|Hne]; simpl.
  - destruct (Z.eqb_spec limitedPrice 100); [done|]. done.
  - destruct (Z.eqb_spec (price book) 100); done.
Qed.

End Facts.
End MiddlewareFacts.

(* ===================================================================== *)
(** * The further properties at work on sample data                       *)
(* ===================================================================== *)

Module MoreSampleFacts.
Import Rx Store LoadingGate GateUse Stories StoriesUse SwitchMap ContactsPage.
Import Middleware Samples MoreSamples.
Import GateUseFacts ContactsPageFacts MiddlewareFacts.
Import Stdlib.Strings.String.StringSyntax.
Local Delimit Scope string_scope with string.

(** The observer's handlers and the source's teardown all see the flag
    raised; it is lowered after them. *)
Example watched_request_completes :
  let w := watchedRun noteFlag [] noteFlagAtTeardown
             [Emit (Next 7%nat); Emit Complete] (mkStore false [] []) in
  rest (state w) = [true; true; true] /\ loading (state w) = false.
Proof. split; reflexivity. Qed.

(** Request A completes while request B is still running: the flag is
    down although B has not answered. *)
Example shared_flag_down_while_other_runs :
  let x := sharedRun listener listener id id
             [(GateA, Emit (Next 1%nat)); (GateA, Emit Complete)] idle in
  loading (store x) = false /\ closed (subB x) = false /\
  history (store x) = [true; true; false].
Proof. repeat split; reflexivity. Qed.

(** Subscribed twice, the story is there twice - also when the second
    subscription is made while the first timer is still running. *)
Example story_added_twice :
  subscribeAgain (E:=unit) pushStory listener 42%nat
    [Elapse 1000] [Pass 1000] idle =
  mkStore false [true; false; false] [42%nat; 42%nat].
Proof. reflexivity. Qed.

Example story_added_twice_overlapping :
  subscribeAgain (E:=unit) pushStory listener 42%nat
    [Elapse 500] [Pass 1000] idle =
  mkStore false [true; false; false] [42%nat; 42%nat].
Proof. reflexivity. Qed.

Example story_added_once_while_second_waits :
  subscribeAgain (E:=unit) pushStory listener 42%nat
    [Elapse 500] [Pass 500] idle =
  mkStore false [true; false] [42%nat].
Proof. reflexivity. Qed.

Example story_not_added_by_cancelled_first :
  subscribeAgain (E:=unit) pushStory listener 42%nat
    [Elapse 500] [CancelFirst; Pass 1000] idle =
  mkStore false [true; false] [42%nat].
Proof. reflexivity. Qed.

(** What the basic component asks of the paginator and what it passes on
    when page 5's observable answers once more after page 7 was chosen. *)
Example five_seven_recorded :
  state (down (recorded fiveSevenEvents)) =
    [CallGetPage (mkPageRequest 5 10); CallTeardown 0;
     CallGetPage (mkPageRequest 7 10)] /\
  received (sub (down (recorded fiveSevenEvents))) =
    [Next 51%nat; Next 71%nat].
Proof. split; reflexivity. Qed.

(** What the advanced component asks of the paginator when the user sorts
    by name and then goes to page 2. *)
Example sort_then_page_recorded :
  state (down (switched (recordedFiltered (Some 1) sortThenPage))) =
    [CallClearCache;
     CallGetPage (mkFilteredRequest 1 "price"%string 10);
     CallClearCache; CallTeardown 0;
     CallGetPage (mkFilteredRequest 1 "name"%string 10);
     CallTeardown 1;
     CallGetPage (mkFilteredRequest 2 "name"%string 10)].
Proof. reflexivity. Qed.



Lemma stale_page_result_is_dropped_witness :
  react (projectPage (fun r t => t ++ [CallGetPage r]))
        (fun k t => t ++ [CallTeardown k]) (fun _ t => t)
        (Inner 0 (Next 52%nat))
        (recorded (V:=nat) (E:=unit) [Outer (Next 5); Outer (Next 7)]) =
  recorded [Outer (Next 5); Outer (Next 7)].
Proof.
  apply (stale_page_result_is_dropped
           (fun r t => t ++ [CallGetPage r])
           (fun k t => t ++ [CallTeardown k]) (fun _ t => t)
           [Outer (Next 5); Outer (Next 7)] [] 0 (Next 52%nat)).
  simpl. lia.
Defined.

Lemma requests_since_clear_carry_filters_witness :
  carriesSelected "name"%string 10
    (state (down (switched (recordedFiltered (Some 1) sortThenPage)))) /\
  clears (state (down (switched (recordedFiltered (Some 1) sortThenPage)))) =
    2%nat.
Proof.
  apply (requests_since_clear_carry_filters (Some 1) sortThenPage).
  reflexivity.
Defined.

Lemma akitaPreAddEntity_caps_once_witness :
  price (akitaPreAddEntity 80 (mkBook 100 tt)) <> 100 /\
  akitaPreAddEntity 80 (akitaPreAddEntity 80 (mkBook 100 tt)) =
    akitaPreAddEntity 80 (mkBook 100 tt) /\
  details (akitaPreAddEntity 80 (mkBook 100 tt)) = tt.
Proof.
  apply (akitaPreAddEntity_caps_once 80 (mkBook 100 tt)). lia.
Defined.

End MoreSampleFacts.
